(** * OrgChartExtractWeb: the extraction core of [streamlit_app.py]

    A shallow embedding of the four functions of the application that carry
    logic,

      - [get_shape_fill_color_info]   (the fill-colour classifier),
      - [get_all_text_from_shape]     (the text concatenator),
      - [generate_text_details_tsv]   (the text-run pass, "Stream A"),
      - [generate_combined_shape_details_tsv] (the shape-summary pass,
        "Stream B"),

    together with the properties stated for them.

    Conventions.
      - A Python [str] is a [string]; every character stands for the code
        point of the same number (0..255).
      - A Python [int] is a [Z]; a [float] is a [spec_float] (IEEE binary64
        as sign, mantissa, exponent).
      - A python-pptx object is a record of the attributes the application
        reads.  An attribute that the application probes with [hasattr] is
        an [option] (or an [attr], where reading it may also fail).  A
        member of a python-pptx enumeration is its integer where it is
        compared, and an [EnumMember] where it is printed.
      - The csv writer is the list of the rows handed to it, in order; a row
        is the list of the Python values of the source's list literal. *)

From Stdlib Require Import ZArith List String Ascii Bool Lia.
From Stdlib Require Import DecimalString DecimalZ DecimalPos SpecFloat.
From Stdlib Require Import Strings.Byte Sorted.
Import ListNotations.

Local Open Scope string_scope.
Local Open Scope Z_scope.

(* ================================================================== *)
(** * Python values, strings and number formatting *)

Inductive pyval : Type :=
| PyNone
| PyBool (b : bool)
| PyInt (z : Z)
| PyStr (s : string).

(** [str.isspace] on the code points below 256: TAB..CR, FS..US, SPACE,
    NEL and NBSP. *)
Definition isspace (c : ascii) : bool :=
  let n := Z.of_nat (nat_of_ascii c) in
  ((9 <=? n) && (n <=? 13)) || ((28 <=? n) && (n <=? 32))
  || (n =? 133) || (n =? 160).

Fixpoint lstrip (s : string) : string :=
  match s with
  | EmptyString => EmptyString
  | String c s' => if isspace c then lstrip s' else s
  end.

Fixpoint rstrip (s : string) : string :=
  match s with
  | EmptyString => EmptyString
  | String c s' =>
      match rstrip s' with
      | EmptyString => if isspace c then EmptyString else String c EmptyString
      | r => String c r
      end
  end.

(** [s.strip()] *)
Definition strip (s : string) : string := rstrip (lstrip s).

(** Truth value of a [str]: non-empty. *)
Definition truthy (s : string) : bool :=
  match s with EmptyString => false | _ => true end.

(** [sep.join(parts)] *)
Definition join (sep : string) (parts : list string) : string :=
  String.concat sep parts.

(** [s.startswith(p)] and [s.endswith(p)] *)
Definition startswith (s p : string) : bool := String.prefix p s.

Fixpoint srev (s : string) : string :=
  match s with
  | EmptyString => EmptyString
  | String c s' => srev s' ++ String c EmptyString
  end.

Definition endswith (s p : string) : bool := String.prefix (srev p) (srev s).

(** [str(z)] for an [int]: what [f"{z}"] renders. *)
Definition str_of_int (z : Z) : string := NilZero.string_of_int (Z.to_int z).

(** ** [f"{x:.2f}"] for a float

    The conversion is exact: the value [m * 2^e] is scaled by 100 and
    rounded to the nearest integer, ties to even, which is what CPython's
    correctly rounded [float.__format__] prints. *)

Definition round_half_even (n d : Z) : Z :=
  let q := n / d in
  let r := n mod d in
  match 2 * r ?= d with
  | Lt => q
  | Gt => q + 1
  | Eq => if Z.even q then q else q + 1
  end.

(** The magnitude in hundredths, rounded. *)
Definition hundredths (m : positive) (e : Z) : Z :=
  if 0 <=? e then Z.pos m * 2 ^ e * 100
  else round_half_even (Z.pos m * 100) (2 ^ (- e)).

Definition two_digits (n : Z) : string :=
  if n <? 10 then "0" ++ str_of_int n else str_of_int n.

Definition fixed2 (neg : bool) (h : Z) : string :=
  (if neg then "-" else "") ++ str_of_int (h / 100) ++ "." ++ two_digits (h mod 100).

Definition format_2f (x : spec_float) : string :=
  match x with
  | S754_nan => "nan"
  | S754_infinity neg => if neg then "-inf" else "inf"
  | S754_zero neg => fixed2 neg 0
  | S754_finite neg m e => fixed2 neg (hundredths m e)
  end.

(* ================================================================== *)
(** * Exceptions *)

Inductive exn : Type :=
| AttributeError
| TypeError
| ValueError
| NotImplementedError
| OtherException (what : string).

Inductive res (A : Type) : Type :=
| Ok (a : A)
| Raise (e : exn).
Arguments Ok {A} a.
Arguments Raise {A} e.

Definition rbind {A B} (x : res A) (k : A -> res B) : res B :=
  match x with
  | Ok a => k a
  | Raise e => Raise e
  end.

(** [try: body except Exception: handler] *)
Definition try_except {A} (body : res A) (handler : exn -> res A) : res A :=
  match body with
  | Ok a => Ok a
  | Raise e => handler e
  end.

(** An attribute that is probed with [hasattr] and whose getter may itself
    fail: it has a value, is missing ([AttributeError], so [hasattr] is
    false), or raises something else (which [hasattr] lets through). *)
Inductive attr (A : Type) : Type :=
| Value (a : A)
| Missing
| Faulty (e : exn).
Arguments Value {A} a.
Arguments Missing {A}.
Arguments Faulty {A} e.

Definition hasattr {A} (x : attr A) : res bool :=
  match x with
  | Value _ => Ok true
  | Missing => Ok false
  | Faulty e => Raise e
  end.

Definition getattr {A} (x : attr A) : res A :=
  match x with
  | Value a => Ok a
  | Missing => Raise AttributeError
  | Faulty e => Raise e
  end.

(** Reading an attribute that is simply present or absent. *)
Definition getopt {A} (x : option A) : res A :=
  match x with
  | Some a => Ok a
  | None => Raise AttributeError
  end.

Declare Scope res_scope.
Delimit Scope res_scope with res.
Notation "x <- c ;; k" := (rbind c (fun x => k))
  (at level 61, c at next level, right associativity) : res_scope.

(* ================================================================== *)
(** * The document model: what the application reads of python-pptx *)

(** [pptx.enum.dml.MSO_FILL_TYPE]: the seven members the application names. *)
Inductive MSO_FILL_TYPE : Type :=
| SOLID | GRADIENT | PICTURE | GROUP | BACKGROUND | PATTERNED | TEXTURED.

Definition MSO_FILL_TYPE_eqb (a b : MSO_FILL_TYPE) : bool :=
  match a, b with
  | SOLID, SOLID | GRADIENT, GRADIENT | PICTURE, PICTURE | GROUP, GROUP
  | BACKGROUND, BACKGROUND | PATTERNED, PATTERNED | TEXTURED, TEXTURED => true
  | _, _ => false
  end.

(** [RGBColor]: three bytes, indexed 0, 1, 2. *)
Record RGBColor : Type := { red : byte; green : byte; blue : byte }.

(** A member of a python-pptx enumeration: an [int] with a name.  Its
    [str], which an f-string prints, is the name with the value in
    brackets, as in [DARK_2 (3)]. *)
Record EnumMember : Type := { member_name : string; member_value : Z }.

Definition str_of_member (m : EnumMember) : string :=
  member_name m ++ " (" ++ str_of_int (member_value m) ++ ")".

(** [fill.fore_color].  [rgb] and [theme_color] are probed with [hasattr]
    and may be [None]; the theme colour is a member of
    [MSO_THEME_COLOR]; [brightness] is read directly. *)
Record ColorFormat : Type := {
  rgb : attr (option RGBColor);
  theme_color : attr (option EnumMember);
  brightness : res spec_float
}.

(** [shape.fill].  [fill_type] is [fill.type]: a member of the
    enumeration, or [None] when the shape has no fill of its own. *)
Record FillFormat : Type := {
  fill_type : res (option MSO_FILL_TYPE);
  fore_color : res ColorFormat
}.

Record Run : Type := { run_text : string }.

Record Paragraph : Type := {
  paragraph_text : string;
  runs : list Run
}.

Record TextFrame : Type := { paragraphs : list Paragraph }.

Record Cell : Type := {
  cell_text : string;
  cell_text_frame : TextFrame
}.

Record Row : Type := { cells : list Cell }.

Record Table : Type := { rows : list Row }.

(** A shape.  [shape_type] is the integer of the kind, or [None]: the
    kind python-pptx gives a graphic frame it does not recognise.
    [fill], [shape_left] .. [shape_height] are [None] when the object
    has no such attribute; [text_frame] is present exactly when
    [has_text_frame] holds; [table] is [None] when reading [shape.table]
    fails. *)
Record Shape : Type := {
  shape_id : Z;
  name : option string;
  shape_type : option Z;
  fill : option FillFormat;
  shape_left : option pyval;
  shape_top : option pyval;
  shape_width : option pyval;
  shape_height : option pyval;
  text_frame : option TextFrame;
  table : option Table
}.

Definition has_text_frame (shape : Shape) : bool :=
  match text_frame shape with Some _ => true | None => false end.

(** What [get_shape_fill_color_info] reads of its argument before its
    [try]: the [fill] attribute, probed with [hasattr], and the kind.
    For an arbitrary object either read may raise. *)
Record ShapeObject : Type := {
  object_fill : attr FillFormat;
  object_shape_type : res (option Z)
}.

(** A [Shape] is an object both of whose reads succeed. *)
Definition object_of (shape : Shape) : ShapeObject :=
  {| object_fill := match fill shape with
                    | Some fl => Value fl
                    | None => Missing
                    end;
     object_shape_type := Ok (shape_type shape) |}.

Coercion object_of : Shape >-> ShapeObject.

Record Slide : Type := { shapes : list Shape }.

Record Presentation : Type := { slides : list Slide }.

(** The uploaded file, as the two passes use it: the outcome of
    [uploaded_file.seek(0)] and of [Presentation(uploaded_file)]. *)
Record UploadedFile : Type := {
  seek0 : res unit;
  load : res Presentation
}.

(* ================================================================== *)
(** * The csv writer and the passes' control flow *)

(** The rows handed to a csv writer so far, oldest first. *)
Definition buffer : Type := list (list pyval).

(** A computation over a state [S] (an output buffer, local lists) that
    may raise; the state reached when it raises is kept, as the Python
    objects are. *)
Definition M (S A : Type) : Type := S -> res A * S.

Definition ret {S A} (a : A) : M S A := fun s => (Ok a, s).

Definition bind {S A B} (c : M S A) (k : A -> M S B) : M S B :=
  fun s =>
    match c s with
    | (Ok a, s') => k a s'
    | (Raise e, s') => (Raise e, s')
    end.

(** A read of the document inside a pass. *)
Definition lift {S A} (r : res A) : M S A := fun s => (r, s).

Declare Scope pass_scope.
Delimit Scope pass_scope with pass.
Notation "x <- c ;; k" := (bind c (fun x => k))
  (at level 61, c at next level, right associativity) : pass_scope.
Notation "c ;; k" := (bind c (fun _ => k))
  (at level 61, right associativity) : pass_scope.

(** [for x in xs: body] *)
Fixpoint for_each {S A} (xs : list A) (body : A -> M S unit) : M S unit :=
  match xs with
  | [] => ret tt
  | x :: xs' => (body x ;; for_each xs' body)%pass
  end.

(** [for i, x in enumerate(xs): body], counting from [i]. *)
Fixpoint for_enumerate_from {S A} (i : Z) (xs : list A)
    (body : Z -> A -> M S unit) : M S unit :=
  match xs with
  | [] => ret tt
  | x :: xs' => (body i x ;; for_enumerate_from (i + 1) xs' body)%pass
  end.

Definition for_enumerate {S A} (xs : list A) (body : Z -> A -> M S unit)
  : M S unit := for_enumerate_from 0 xs body.

(** [tsv_writer.writerow(row)] *)
Definition writerow (row : list pyval) : M buffer unit :=
  fun output => (Ok tt, (output ++ [row])%list).

(** [kind == code] for a kind that is an integer or [None]. *)
Definition kind_eq (kind : option Z) (code : Z) : bool :=
  match kind with
  | Some k => k =? code
  | None => false
  end.

(** [str(kind)], as an f-string prints it. *)
Definition str_of_kind (kind : option Z) : string :=
  match kind with
  | Some k => str_of_int k
  | None => "None"
  end.

(* ================================================================== *)
(** * The application *)

Section Application.

(** [pptx.enum.shapes.MSO_SHAPE_TYPE]: the members in definition order,
    each with its name and its integer value.  The application probes it
    with [hasattr], compares shape kinds with its members and with raw
    codes, and iterates it. *)
Variable MSO_SHAPE_TYPE : list (string * Z).

(** [getattr(MSO_SHAPE_TYPE, member)], [None] when there is no such member. *)
Definition enum_member (member : string) : option Z :=
  option_map snd (find (fun m => String.eqb (fst m) member) MSO_SHAPE_TYPE).

(** [hasattr(MSO_SHAPE_TYPE, member) and kind == MSO_SHAPE_TYPE.member] *)
Definition kind_is (member : string) (kind : option Z) : bool :=
  match enum_member member with
  | Some v => kind_eq kind v
  | None => false
  end.

(** [not hasattr(MSO_SHAPE_TYPE, member) and kind == code] *)
Definition kind_is_raw (member : string) (code : Z) (kind : option Z) : bool :=
  match enum_member member with
  | Some _ => false
  | None => kind_eq kind code
  end.

(** The guard of lines 90-91 and 137-138. *)
Definition is_line (shape : Shape) : bool :=
  kind_is "LINE" (shape_type shape) || kind_is_raw "LINE" 13 (shape_type shape).

(** The guard of lines 62-63 and 101-102. *)
Definition is_table (shape : Shape) : bool :=
  kind_is "TABLE" (shape_type shape) || kind_is_raw "TABLE" 19 (shape_type shape).

(** ** [get_shape_fill_color_info] *)

Definition fill_type_map : list (MSO_FILL_TYPE * string) :=
  [ (SOLID, "Solid Fill"); (GRADIENT, "Gradient Fill");
    (PICTURE, "Picture Fill"); (GROUP, "Group Fill");
    (BACKGROUND, "Background Fill"); (PATTERNED, "Patterned Fill");
    (TEXTURED, "Textured Fill") ].

(** [d[k]] when [k in d] *)
Definition dict_get (k : MSO_FILL_TYPE) (d : list (MSO_FILL_TYPE * string))
  : option string :=
  option_map snd (find (fun kv => MSO_FILL_TYPE_eqb (fst kv) k) d).

Definition is_not_None {A} (v : option A) : bool :=
  match v with Some _ => true | None => false end.

(** [hasattr(obj, a) and obj.a is not None] *)
Definition present_and_set {A} (x : attr (option A)) : res bool :=
  (has <- hasattr x ;;
   if has then (v <- getattr x ;; Ok (is_not_None v)) else Ok false)%res.

Definition str_of_byte (b : byte) : string := str_of_int (Z.of_N (Byte.to_N b)).

(** The body of the [try] (lines 32-47); the result is the final
    [color_info], which starts as ["No Fill"]. *)
Definition inspect_fill (fill : FillFormat) : res string :=
  (let color_info := "No Fill" in
   ty <- fill_type fill ;;
   match ty with
   | None => Ok color_info
   | Some ty =>
       match dict_get ty fill_type_map with
       | None => Ok color_info
       | Some label =>
           let color_info := label in
           if MSO_FILL_TYPE_eqb ty SOLID then
             color <- fore_color fill ;;
             has_rgb <- present_and_set (rgb color) ;;
             if has_rgb then
               rgb_val <- getattr (rgb color) ;;
               match rgb_val with
               | Some c =>
                   Ok ("RGB(" ++ str_of_byte (red c) ++ "," ++ str_of_byte (green c)
                         ++ "," ++ str_of_byte (blue c) ++ ")")
               | None => Raise TypeError
               end
             else
               has_theme <- present_and_set (theme_color color) ;;
               if has_theme then
                 b <- brightness color ;;
                 tc <- getattr (theme_color color) ;;
                 Ok ("ThemeColor(Type:"
                       ++ match tc with Some m => str_of_member m | None => "None" end
                       ++ ", Brightness:" ++ format_2f b ++ ")")
               else Ok color_info
           else Ok color_info
       end
   end)%res.

(** Lines 18-29 read the object outside the [try]: [hasattr] lets any
    exception but [AttributeError] through, and the branch of a shape
    without [fill] always reads [shape.shape_type] (at the latest in
    [shape.shape_type == 6]). *)
Definition get_shape_fill_color_info (shape : ShapeObject) : res string :=
  (has_fill <- hasattr (object_fill shape) ;;
   if negb has_fill then
     kind <- object_shape_type shape ;;
     if kind_is "TABLE" kind then Ok "Table Container (Fill N/A)"
     else if kind_is "CHART" kind then Ok "Chart Container (Fill N/A)"
     else
       let is_other_graphic_frame :=
         kind_is "GRAPHIC_FRAME" kind || kind_eq kind 6 in
       if is_other_graphic_frame then Ok "Graphic Frame (Fill N/A)"
       else Ok "Fill Attribute Missing / Other Type"
   else
     fill <- getattr (object_fill shape) ;;
     try_except (inspect_fill fill)
                (fun _ => Ok "Fill Info Error (General)"))%res.

(** ** [get_all_text_from_shape] *)

(** [if t.strip(): text_parts.append(t.strip())] *)
Definition append_stripped (text_parts : list string) (t : string) : list string :=
  if truthy (strip t) then (text_parts ++ [strip t])%list else text_parts.

(** The list [text_parts] at line 69. *)
Definition text_parts_of_shape (shape : Shape) : res (list string) :=
  (let text_parts := [] in
   text_parts <-
     (if has_text_frame shape then
        tf <- getopt (text_frame shape) ;;
        Ok (fold_left (fun parts paragraph =>
                         append_stripped parts (paragraph_text paragraph))
                      (paragraphs tf) text_parts)
      else Ok text_parts) ;;
   if is_table shape then
     tbl <- getopt (table shape) ;;
     Ok (fold_left (fun parts row =>
                      fold_left (fun parts cell =>
                                   append_stripped parts (cell_text cell))
                                (cells row) parts)
                   (rows tbl) text_parts)
   else Ok text_parts)%res.

Definition get_all_text_from_shape (shape : Shape) : res string :=
  (text_parts <- text_parts_of_shape shape ;;
   Ok (join " | " text_parts))%res.

(** ** [generate_text_details_tsv] *)

Definition text_headers : list string :=
  [ "slide_index"; "shape_id"; "is_table_cell"; "cell_row_index";
    "cell_col_index"; "paragraph_index"; "run_index"; "text" ].

(** Lines 83-109: the body of the [try]. *)
Definition text_details_body (uploaded_file : UploadedFile) : M buffer unit :=
  (prs <- lift (load uploaded_file) ;;
   writerow (map PyStr text_headers) ;;
   for_enumerate (slides prs) (fun slide_idx slide =>
     for_each (shapes slide) (fun shape =>
       if is_line shape then ret tt   (* continue *)
       else
         let shape_id := shape_id shape in
         (if has_text_frame shape then
            tf <- lift (getopt (text_frame shape)) ;;
            for_enumerate (paragraphs tf) (fun para_idx p =>
              for_enumerate (runs p) (fun run_idx run =>
                if truthy (strip (run_text run)) then
                  writerow [ PyInt slide_idx; PyInt shape_id; PyBool false;
                             PyNone; PyNone; PyInt para_idx; PyInt run_idx;
                             PyStr (strip (run_text run)) ]
                else ret tt))
          else ret tt) ;;
         (if is_table shape then
            tbl <- lift (getopt (table shape)) ;;
            for_enumerate (rows tbl) (fun r_idx row =>
              for_enumerate (cells row) (fun c_idx cell =>
                for_enumerate (paragraphs (cell_text_frame cell)) (fun para_idx p =>
                  for_enumerate (runs p) (fun run_idx run =>
                    if truthy (strip (run_text run)) then
                      writerow [ PyInt slide_idx; PyInt shape_id; PyBool true;
                                 PyInt r_idx; PyInt c_idx; PyInt para_idx;
                                 PyInt run_idx; PyStr (strip (run_text run)) ]
                    else ret tt))))
          else ret tt))))%pass.

(** The rows of the returned text, or [None] where the source returns
    [None] from its [except] clause. *)
Definition generate_text_details_tsv (uploaded_file : UploadedFile)
  : option buffer :=
  let output := [] in
  match text_details_body uploaded_file output with
  | (Ok _, output) => Some output
  | (Raise _, _) => None
  end.

(** ** [generate_combined_shape_details_tsv] *)

Definition csv_headers : list string :=
  [ "slide_index"; "shape_id"; "shape_name"; "shape_type"; "color";
    "x_coordinate_emu"; "y_coordinate_emu"; "width_emu"; "height_emu"; "text" ].

(** A row dictionary: keys in insertion order. *)
Definition rowdict : Type := list (string * pyval).

Definition rowdict_get (d : rowdict) (key : string) : option pyval :=
  option_map snd (find (fun kv => String.eqb (fst kv) key) d).

(** What [csv.DictWriter] hands to its writer for one dictionary: the
    values in the order of [fieldnames], [''] for a key that is not set.
    (The dictionaries built below have the field names as their keys, so
    the writer's check for unknown keys passes.) *)
Definition dict_to_list (fieldnames : list string) (d : rowdict) : list pyval :=
  map (fun key => match rowdict_get d key with
                  | Some v => v
                  | None => PyStr ""
                  end) fieldnames.

(** The two objects the pass fills: the output text and
    [shape_details_list]. *)
Record summary_state : Type := {
  output : buffer;
  shape_details_list : list rowdict
}.

(** [shape_details_list.append(d)] *)
Definition append_details (d : rowdict) : M summary_state unit :=
  fun s => (Ok tt, {| output := output s;
                      shape_details_list := (shape_details_list s ++ [d])%list |}).

(** [tsv_writer.writerows(shape_details_list)] *)
Definition writerows : M summary_state unit :=
  fun s => (Ok tt, {| output := (output s
                                  ++ map (dict_to_list csv_headers)
                                         (shape_details_list s))%list;
                      shape_details_list := shape_details_list s |}).

(** Lines 141-142. *)
Definition shape_type_str (shape : Shape) : string :=
  match find (fun m => kind_eq (shape_type shape) (snd m)) MSO_SHAPE_TYPE with
  | Some m => fst m
  | None => "Unknown (" ++ str_of_kind (shape_type shape) ++ ")"
  end.

(** [shape.name or "Unnamed Shape"] *)
Definition name_or_default (n : option string) : string :=
  match n with
  | Some s => if truthy s then s else "Unnamed Shape"
  | None => "Unnamed Shape"
  end.

(** [shape.a if hasattr(shape, 'a') else 'N/A'] *)
Definition geometry (a : option pyval) : pyval :=
  match a with
  | Some v => v
  | None => PyStr "N/A"
  end.

(** Lines 132-155: the body of the [try]. *)
Definition shape_details_body (uploaded_file : UploadedFile)
  : M summary_state unit :=
  (lift (seek0 uploaded_file) ;;
   prs <- lift (load uploaded_file) ;;
   for_enumerate (slides prs) (fun slide_idx slide =>
     for_each (shapes slide) (fun shape =>
       if is_line shape then ret tt   (* continue *)
       else
         let shape_type_str := shape_type_str shape in
         color <- lift (get_shape_fill_color_info shape) ;;
         text <- lift (get_all_text_from_shape shape) ;;
         append_details
           [ ("slide_index", PyInt slide_idx);
             ("shape_id", PyInt (shape_id shape));
             ("shape_name", PyStr (name_or_default (name shape)));
             ("shape_type", PyStr shape_type_str);
             ("color", PyStr color);
             ("x_coordinate_emu", geometry (shape_left shape));
             ("y_coordinate_emu", geometry (shape_top shape));
             ("width_emu", geometry (shape_width shape));
             ("height_emu", geometry (shape_height shape));
             ("text", PyStr text) ])) ;;
   writerows)%pass.

(** The rows of the returned text (the header first), or [None] where the
    source returns [None] from its [except] clause. *)
Definition generate_combined_shape_details_tsv (uploaded_file : UploadedFile)
  : option buffer :=
  (* tsv_writer.writeheader() *)
  let start := {| output := [map PyStr csv_headers]; shape_details_list := [] |} in
  match shape_details_body uploaded_file start with
  | (Ok _, final) => Some (output final)
  | (Raise _, _) => None
  end.

End Application.

(** python-pptx's published [MSO_SHAPE_TYPE], for running the functions on
    concrete shapes. *)
Definition pptx_MSO_SHAPE_TYPE : list (string * Z) :=
  [ ("AUTO_SHAPE", 1); ("CALLOUT", 2); ("CANVAS", 20); ("CHART", 3);
    ("COMMENT", 4); ("DIAGRAM", 21); ("EMBEDDED_OLE_OBJECT", 7);
    ("FORM_CONTROL", 8); ("FREEFORM", 5); ("GROUP", 6); ("IGX_GRAPHIC", 24);
    ("INK", 22); ("INK_COMMENT", 23); ("LINE", 9); ("LINKED_OLE_OBJECT", 10);
    ("LINKED_PICTURE", 11); ("MEDIA", 16); ("OLE_CONTROL_OBJECT", 12);
    ("PICTURE", 13); ("PLACEHOLDER", 14); ("SCRIPT_ANCHOR", 18);
    ("TABLE", 19); ("TEXT_EFFECT", 15); ("TEXT_BOX", 17); ("WEB_VIDEO", 26);
    ("MIXED", -2) ].

(** The double nearest to 0.456: [0x1.d2f1a9fbe76c9p-2]. *)
Definition float_0_456 : spec_float :=
  S754_finite false 8214565720323785 (-54).

(* ================================================================== *)
(** * Reading the outputs *)

(** The value of a row in the column headed [key]. *)
Definition column (headers : list string) (key : string) (row : list pyval)
  : option pyval :=
  option_map snd (find (fun kv => String.eqb (fst kv) key) (combine headers row)).

(** [h] is the integer nearest to [100 * m * 2^e]. *)
Definition nearest_hundredth (m : positive) (e h : Z) : Prop :=
  if 0 <=? e then h = 100 * (Z.pos m * 2 ^ e)
  else Z.abs (2 * (100 * Z.pos m) - 2 * h * 2 ^ (- e)) <= 2 ^ (- e).

(** A row of Stream A whose [is_table_cell] is [False]. *)
Definition is_frame_row (row : list pyval) : bool :=
  match column text_headers "is_table_cell" row with
  | Some (PyBool false) => true
  | _ => false
  end.

(** [enumerate(xs)] counting from [i], as a list. *)
Fixpoint enumerate_from {A} (i : Z) (xs : list A) : list (Z * A) :=
  match xs with
  | [] => []
  | x :: xs' => (i, x) :: enumerate_from (i + 1) xs'
  end.

Definition enumerate {A} (xs : list A) : list (Z * A) := enumerate_from 0 xs.

(** A row of Stream A; [cellpos] is the cell's row and column for a row
    of the table branch. *)
Definition text_row (slide_idx shape_id : Z) (cellpos : option (Z * Z))
    (para_idx run_idx : Z) (text : string) : list pyval :=
  match cellpos with
  | None => [ PyInt slide_idx; PyInt shape_id; PyBool false; PyNone; PyNone;
              PyInt para_idx; PyInt run_idx; PyStr text ]
  | Some (r_idx, c_idx) =>
            [ PyInt slide_idx; PyInt shape_id; PyBool true; PyInt r_idx;
              PyInt c_idx; PyInt para_idx; PyInt run_idx; PyStr text ]
  end.

Definition nonempty_run (run : Run) : bool := truthy (strip (run_text run)).

(** The rows of the runs of one text frame, in traversal order. *)
Definition frame_rows (slide_idx shape_id : Z) (cellpos : option (Z * Z))
    (tf : TextFrame) : buffer :=
  flat_map (fun ip =>
    flat_map (fun ir =>
      if nonempty_run (snd ir)
      then [text_row slide_idx shape_id cellpos (fst ip) (fst ir)
                     (strip (run_text (snd ir)))]
      else [])
      (enumerate (runs (snd ip))))
    (enumerate (paragraphs tf)).

Definition table_rows (slide_idx shape_id : Z) (tbl : Table) : buffer :=
  flat_map (fun ir =>
    flat_map (fun ic =>
      frame_rows slide_idx shape_id (Some (fst ir, fst ic))
                 (cell_text_frame (snd ic)))
      (enumerate (cells (snd ir))))
    (enumerate (rows tbl)).

Section Reading.

Variable MSO_SHAPE_TYPE : list (string * Z).

(** The rows the text-run pass owes to one shape. *)
Definition shape_text_rows (slide_idx : Z) (shape : Shape) : buffer :=
  if is_line MSO_SHAPE_TYPE shape then []
  else
    (match text_frame shape with
     | Some tf => frame_rows slide_idx (shape_id shape) None tf
     | None => []
     end
     ++
     if is_table MSO_SHAPE_TYPE shape then
       match table shape with
       | Some tbl => table_rows slide_idx (shape_id shape) tbl
       | None => []
       end
     else [])%list.

(** A shape the passes can walk: one that is skipped, or whose table is
    there when its kind says table. *)
Definition walkable (shape : Shape) : bool :=
  is_line MSO_SHAPE_TYPE shape
  || negb (is_table MSO_SHAPE_TYPE shape)
  || is_not_None (table shape).

(** The shapes that are not skipped, each with the index of its slide,
    in traversal order. *)
Definition visible_shapes (prs : Presentation) : list (Z * Shape) :=
  flat_map (fun isl =>
    map (fun shape => (fst isl, shape))
        (filter (fun shape => negb (is_line MSO_SHAPE_TYPE shape))
                (shapes (snd isl))))
    (enumerate (slides prs)).

Definition all_shapes (prs : Presentation) : list Shape :=
  flat_map shapes (slides prs).

(** The runs with non-empty trimmed text in the text frames of the shapes
    that are not connectors. *)
Definition nonempty_frame_runs (prs : Presentation) : list Run :=
  flat_map (fun slide =>
    flat_map (fun shape =>
      if is_line MSO_SHAPE_TYPE shape then []
      else match text_frame shape with
           | Some tf => flat_map (fun p => filter nonempty_run (runs p))
                                 (paragraphs tf)
           | None => []
           end)
      (shapes slide))
    (slides prs).

(** The texts the concatenator looks at: the paragraphs of the text
    frame, then the cells of the table. *)
Definition shape_texts (shape : Shape) : list string :=
  (match text_frame shape with
   | Some tf => map paragraph_text (paragraphs tf)
   | None => []
   end
   ++
   if is_table MSO_SHAPE_TYPE shape then
     match table shape with
     | Some tbl => flat_map (fun row => map cell_text (cells row)) (rows tbl)
     | None => []
     end
   else [])%list.

(** Shape identifiers are unique within each slide. *)
Definition unique_ids (prs : Presentation) : Prop :=
  forall slide, In slide (slides prs) -> NoDup (map shape_id (shapes slide)).

(** [shape] is a shape of the slide at position [slide_idx]. *)
Definition on_slide (prs : Presentation) (slide_idx : Z) (shape : Shape) : Prop :=
  exists slide,
    0 <= slide_idx /\
    nth_error (slides prs) (Z.to_nat slide_idx) = Some slide /\
    In shape (shapes slide).

End Reading.

(* ================================================================== *)
(** * What a computation of a pass does, in one line *)

Section Emitting.

Context {S X : Type} (app : S -> list X -> S).

(** [c] returns [r] after appending [xs] to the state, whatever the
    state was. *)
Definition emits {A} (c : M S A) (r : res A) (xs : list X) : Prop :=
  forall s, c s = (r, app s xs).

(** A loop whose body returns [r x] after appending [f x]: it stops at the
    first element that raises, keeping what was appended until then. *)
Fixpoint run_all {A} (r : A -> res unit) (f : A -> list X) (l : list A)
  : res unit * list X :=
  match l with
  | [] => (Ok tt, [])
  | x :: l' =>
      match r x with
      | Ok _ => (fst (run_all r f l'), (f x ++ snd (run_all r f l'))%list)
      | Raise e => (Raise e, f x)
      end
  end.

End Emitting.

Definition succeeds {A} (r : res A) : bool :=
  match r with Ok _ => true | Raise _ => false end.

Definition value_or {A} (default : A) (r : res A) : A :=
  match r with Ok a => a | Raise _ => default end.

(** Appending to [shape_details_list]. *)
Definition add_details (s : summary_state) (ds : list rowdict) : summary_state :=
  {| output := output s;
     shape_details_list := (shape_details_list s ++ ds)%list |}.

(** [emits] for the two states of the passes. *)
Abbreviation emits_rows := (emits (@List.app (list pyval))).
Abbreviation emits_details := (emits add_details).

Section Streams.

Variable MSO_SHAPE_TYPE : list (string * Z).

(** The outcome of walking one shape. *)
Definition walk_result (shape : Shape) : res unit :=
  if walkable MSO_SHAPE_TYPE shape then Ok tt else Raise AttributeError.

(** Every shape of every slide can be walked. *)
Definition walkable_presentation (prs : Presentation) : bool :=
  forallb (fun slide => forallb (walkable MSO_SHAPE_TYPE) (shapes slide))
          (slides prs).

(** The data rows of Stream A, in traversal order. *)
Definition text_data_rows (prs : Presentation) : buffer :=
  flat_map (fun isl =>
              flat_map (shape_text_rows MSO_SHAPE_TYPE (fst isl))
                       (shapes (snd isl)))
           (enumerate (slides prs)).

(** The dictionary the shape-summary pass builds for one shape. *)
Definition shape_details (slide_idx : Z) (shape : Shape) : rowdict :=
  [ ("slide_index", PyInt slide_idx);
    ("shape_id", PyInt (shape_id shape));
    ("shape_name", PyStr (name_or_default (name shape)));
    ("shape_type", PyStr (shape_type_str MSO_SHAPE_TYPE shape));
    ("color", PyStr (value_or "" (get_shape_fill_color_info MSO_SHAPE_TYPE shape)));
    ("x_coordinate_emu", geometry (shape_left shape));
    ("y_coordinate_emu", geometry (shape_top shape));
    ("width_emu", geometry (shape_width shape));
    ("height_emu", geometry (shape_height shape));
    ("text", PyStr (value_or "" (get_all_text_from_shape MSO_SHAPE_TYPE shape))) ].

(** The data rows of Stream B, in traversal order. *)
Definition summary_data_rows (prs : Presentation) : buffer :=
  map (fun ish => dict_to_list csv_headers (shape_details (fst ish) (snd ish)))
      (visible_shapes MSO_SHAPE_TYPE prs).

End Streams.

(* ================================================================== *)
(** * Sample shapes and documents *)

(** A shape of the given kind with a name and nothing else. *)
Definition bare_shape (id kind : Z) : Shape :=
  {| shape_id := id; name := Some "Shape"; shape_type := Some kind; fill := None;
     shape_left := None; shape_top := None; shape_width := None;
     shape_height := None; text_frame := None; table := None |}.

Definition with_fill (fl : FillFormat) (shape : Shape) : Shape :=
  {| shape_id := shape_id shape; name := name shape;
     shape_type := shape_type shape; fill := Some fl;
     shape_left := shape_left shape; shape_top := shape_top shape;
     shape_width := shape_width shape; shape_height := shape_height shape;
     text_frame := text_frame shape; table := table shape |}.

Definition solid (color : ColorFormat) : FillFormat :=
  {| fill_type := Ok (Some SOLID); fore_color := Ok color |}.

(** Two members of [MSO_THEME_COLOR]. *)
Definition DARK_2 : EnumMember := {| member_name := "DARK_2"; member_value := 3 |}.
Definition NOT_THEME_COLOR : EnumMember :=
  {| member_name := "NOT_THEME_COLOR"; member_value := 0 |}.

(** A scheme colour: reading [rgb] fails with [AttributeError]. *)
Definition scheme_color (member : EnumMember) (b : spec_float) : ColorFormat :=
  {| rgb := Missing; theme_color := Value (Some member); brightness := Ok b |}.

Definition rgb_color (r g b : byte) : ColorFormat :=
  {| rgb := Value (Some {| red := r; green := g; blue := b |});
     theme_color := Value (Some NOT_THEME_COLOR);
     brightness := Ok (S754_zero false) |}.

(** A fill whose type cannot be read. *)
Definition broken_fill : FillFormat :=
  {| fill_type := Raise ValueError; fore_color := Raise TypeError |}.

Definition cell_with (text : string) : Cell :=
  {| cell_text := text;
     cell_text_frame :=
       {| paragraphs := [ {| paragraph_text := text;
                             runs := [ {| run_text := text |} ] |} ] |} |}.

(** An empty cell: one paragraph without runs. *)
Definition empty_cell : Cell :=
  {| cell_text := "";
     cell_text_frame :=
       {| paragraphs := [ {| paragraph_text := ""; runs := [] |} ] |} |}.

(** Two rows, two columns: "A" at (0,0), "B" at (1,1). *)
Definition table_2x2 : Table :=
  {| rows := [ {| cells := [cell_with "A"; empty_cell] |};
               {| cells := [empty_cell; cell_with "B"] |} ] |}.

Definition table_shape (id : Z) (tbl : option Table) : Shape :=
  {| shape_id := id; name := Some "Table"; shape_type := Some 19; fill := None;
     shape_left := Some (PyInt 0); shape_top := Some (PyInt 0);
     shape_width := Some (PyInt 914400); shape_height := Some (PyInt 914400);
     text_frame := None; table := tbl |}.

(** A shape of the given kind whose text frame has one paragraph with one
    run. *)
Definition text_shape (id kind : Z) (nm : option string) (text : string) : Shape :=
  {| shape_id := id; name := nm; shape_type := Some kind; fill := None;
     shape_left := Some (PyInt 0); shape_top := Some (PyInt 0);
     shape_width := Some (PyInt 914400); shape_height := Some (PyInt 914400);
     text_frame := Some {| paragraphs := [ {| paragraph_text := text;
                                              runs := [ {| run_text := text |} ] |} ] |};
     table := None |}.

Definition file_of (slide_shapes : list (list Shape)) : UploadedFile :=
  {| seek0 := Ok tt;
     load := Ok {| slides := map (fun l => {| shapes := l |}) slide_shapes |} |}.

(** The state of the shape-summary pass when its [try] is entered. *)
Definition summary_start : summary_state :=
  {| output := [map PyStr csv_headers]; shape_details_list := [] |}.

(** A connector with id 2 on the first slide, a text box with id 2 on the
    second. *)
Definition reused_id_file : UploadedFile :=
  file_of [ [ text_shape 2 9 (Some "Connector") "" ];
            [ text_shape 2 17 (Some "Title") "x" ] ].

(** A text box without a name and a shape whose kind, 99, is no member of
    the enumeration. *)
Definition odd_shapes_file : UploadedFile :=
  file_of [ [ text_shape 2 17 (Some "") "x"; bare_shape 3 99 ] ].

(* ================================================================== *)
(** * Further readings of the outputs *)

(** A row of Stream A whose [is_table_cell] is [True]. *)
Definition is_cell_row (row : list pyval) : bool :=
  match column text_headers "is_table_cell" row with
  | Some (PyBool true) => true
  | _ => false
  end.

(** The integer in the first column of a row. *)
Definition slide_index_of (row : list pyval) : Z :=
  match row with
  | PyInt i :: _ => i
  | _ => -1
  end.

(** [run] is run number [r] of paragraph number [p] of the text frame. *)
Definition run_at (tf : TextFrame) (p r : Z) (run : Run) : Prop :=
  0 <= p /\ 0 <= r /\
  exists para,
    nth_error (paragraphs tf) (Z.to_nat p) = Some para /\
    nth_error (runs para) (Z.to_nat r) = Some run.

(** [cell] is cell number [c_idx] of row number [r_idx] of the table. *)
Definition cell_at (tbl : Table) (r_idx c_idx : Z) (cell : Cell) : Prop :=
  0 <= r_idx /\ 0 <= c_idx /\
  exists row,
    nth_error (rows tbl) (Z.to_nat r_idx) = Some row /\
    nth_error (cells row) (Z.to_nat c_idx) = Some cell.

Section Further.

Variable MSO_SHAPE_TYPE : list (string * Z).

(** The runs with non-empty trimmed text in the cells of the tables of
    the shapes that are not connectors and whose kind says table. *)
Definition nonempty_cell_runs (prs : Presentation) : list Run :=
  flat_map (fun slide =>
    flat_map (fun shape =>
      if is_line MSO_SHAPE_TYPE shape then []
      else if is_table MSO_SHAPE_TYPE shape then
        match table shape with
        | Some tbl =>
            flat_map (fun row =>
              flat_map (fun cell =>
                flat_map (fun p => filter nonempty_run (runs p))
                         (paragraphs (cell_text_frame cell)))
                (cells row))
              (rows tbl)
        | None => []
        end
      else [])
      (shapes slide))
    (slides prs).

(** The document with the connectors taken off every slide. *)
Definition without_connectors (prs : Presentation) : Presentation :=
  {| slides :=
       map (fun slide =>
              {| shapes := filter (fun shape => negb (is_line MSO_SHAPE_TYPE shape))
                                  (shapes slide) |})
           (slides prs) |}.

Definition file_without_connectors (f : UploadedFile) : UploadedFile :=
  {| seek0 := seek0 f;
     load := match load f with
             | Ok prs => Ok (without_connectors prs)
             | Raise e => Raise e
             end |}.

(** The shape with only its text frame, and with only its table. *)
Definition only_text_frame (shape : Shape) : Shape :=
  {| shape_id := shape_id shape; name := name shape;
     shape_type := shape_type shape; fill := fill shape;
     shape_left := shape_left shape; shape_top := shape_top shape;
     shape_width := shape_width shape; shape_height := shape_height shape;
     text_frame := text_frame shape;
     table := Some {| rows := [] |} |}.

Definition only_table (shape : Shape) : Shape :=
  {| shape_id := shape_id shape; name := name shape;
     shape_type := shape_type shape; fill := fill shape;
     shape_left := shape_left shape; shape_top := shape_top shape;
     shape_width := shape_width shape; shape_height := shape_height shape;
     text_frame := None;
     table := table shape |}.

End Further.

(** A text box with both a text frame and (kind 19) a table. *)
Definition framed_table_shape : Shape :=
  {| shape_id := 9; name := Some "Both"; shape_type := Some 19; fill := None;
     shape_left := None; shape_top := Some (PyInt 0);
     shape_width := None; shape_height := None;
     text_frame := Some {| paragraphs := [ {| paragraph_text := " Head ";
                                              runs := [ {| run_text := " Head " |} ] |} ] |};
     table := Some table_2x2 |}.

Definition mixed_presentation : Presentation :=
  {| slides :=
       [ {| shapes := [ text_shape 2 17 (Some "Title") "Hello";
                        text_shape 3 9 (Some "Connector") "skipped";
                        table_shape 4 (Some table_2x2) ] |};
         {| shapes := [ text_shape 2 1 None "   "; framed_table_shape ] |} ] |}.

Definition mixed_file : UploadedFile :=
  {| seek0 := Ok tt; load := Ok mixed_presentation |}.

(** The label of a fill type in [fill_type_map]. *)
Definition fill_label (ty : MSO_FILL_TYPE) : string :=
  match ty with
  | SOLID => "Solid Fill"
  | GRADIENT => "Gradient Fill"
  | PICTURE => "Picture Fill"
  | GROUP => "Group Fill"
  | BACKGROUND => "Background Fill"
  | PATTERNED => "Patterned Fill"
  | TEXTURED => "Textured Fill"
  end.

(** An attribute that [hasattr ... and ... is not None] finds unset. *)
Definition unset {A} (x : attr (option A)) : Prop :=
  x = Missing \/ x = Value None.

(** A gradient fill whose colour cannot be read. *)
Definition gradient_fill : FillFormat :=
  {| fill_type := Ok (Some GRADIENT); fore_color := Raise TypeError |}.

(** A solid fill with an RGB colour whose theme colour cannot be read. *)
Definition rgb_only_color : ColorFormat :=
  {| rgb := Value (Some {| red := x0a; green := x14; blue := x1e |});
     theme_color := Faulty ValueError; brightness := Raise ValueError |}.

(** [a] and [b] joined by the delimiter, an empty side leaving the other
    alone. *)
Definition joined (a b : string) : string :=
  match a, b with
  | EmptyString, _ => b
  | _, EmptyString => a
  | _, _ => a ++ " | " ++ b
  end.

(* ================================================================== *)
(** * Reading printed numbers, and more sample objects *)

(** The integer a decimal numeral denotes. *)
Definition read_int (s : string) : option Z :=
  option_map Z.of_int (NilZero.int_of_string s).

(** The character of a decimal digit. *)
Definition digit_char (d : Z) : ascii := ascii_of_nat (48 + Z.to_nat d).

(** A graphic frame python-pptx does not recognise (a SmartArt diagram):
    no [fill] attribute, kind [None]. *)
Definition smartart_shape : Shape :=
  {| shape_id := 5; name := Some "Diagram"; shape_type := None; fill := None;
     shape_left := Some (PyInt 0); shape_top := Some (PyInt 0);
     shape_width := Some (PyInt 914400); shape_height := Some (PyInt 914400);
     text_frame := None; table := None |}.

Definition smartart_file : UploadedFile :=
  file_of [ [ text_shape 2 17 (Some "Title") "x"; smartart_shape ] ].

(** An object without [fill] whose [shape_type] raises, as the base
    shape class of python-pptx does. *)
Definition kindless_object : ShapeObject :=
  {| object_fill := Missing; object_shape_type := Raise NotImplementedError |}.

(** An object whose [fill] getter raises something else than
    [AttributeError]. *)
Definition faulty_fill_object : ShapeObject :=
  {| object_fill := Faulty (OtherException "InvalidXmlError");
     object_shape_type := Ok (Some 1) |}.
(* ================================================================== *)
(** * Number formatting *)

Lemma round_half_even_nearest (n d : Z) :
  0 <= n -> 0 < d ->
  Z.abs (2 * n - 2 * round_half_even n d * d) <= d.
Proof.
  intros Hn Hd. unfold round_half_even.
  pose proof (Z.div_mod n d ltac:(lia)) as Hdiv.
  pose proof (Z.mod_pos_bound n d Hd) as Hmod.
  destruct (Z.compare_spec (2 * (n mod d)) d) as [Heq | Hlt | Hgt];
    [destruct (Z.even (n / d)) | | ]; nia.
Qed.

Lemma hundredths_nearest (m : positive) (e : Z) :
  nearest_hundredth m e (hundredths m e).
Proof.
  unfold nearest_hundredth, hundredths.
  destruct (0 <=? e) eqn:He; [ring|].
  apply Z.leb_gt in He.
  assert (0 < 2 ^ (- e)) by (apply Z.pow_pos_nonneg; lia).
  pose proof (round_half_even_nearest (Z.pos m * 100) (2 ^ (- e))
                ltac:(lia) ltac:(lia)) as Hr.
  replace (2 * (100 * Z.pos m)) with (2 * (Z.pos m * 100)) by ring.
  exact Hr.
Qed.

(** [float_0_456] is within half a unit in the last place of 0.456. *)
Lemma float_0_456_nearest :
  Z.abs (1000 * 8214565720323785 - 456 * 2 ^ 54) <= 500.
Proof. vm_compute. discriminate. Qed.

Lemma byte_range (b : byte) : 0 <= Z.of_N (Byte.to_N b) <= 255.
Proof. destruct b; vm_compute; split; discriminate. Qed.

(* ================================================================== *)
(** * The fill-colour classifier *)

Lemma dict_get_fill_type_map (ty : MSO_FILL_TYPE) :
  exists label, dict_get ty fill_type_map = Some label /\ label <> "".
Proof. destruct ty; eexists; (split; [reflexivity | discriminate]). Qed.

Lemma present_and_set_cases {A} (x : attr (option A)) :
  match x with
  | Value (Some _) => present_and_set x = Ok true
  | Value None | Missing => present_and_set x = Ok false
  | Faulty e => present_and_set x = Raise e
  end.
Proof. destruct x as [[a|]| |e]; reflexivity. Qed.

(** Whatever the inspection returns is a non-empty description. *)
Lemma inspect_fill_nonempty (fl : FillFormat) (s : string) :
  inspect_fill fl = Ok s -> s <> "".
Proof.
  unfold inspect_fill.
  destruct (fill_type fl) as [[ty|]|e]; cbn [rbind]; try discriminate.
  2:{ intros [= <-]. discriminate. }
  destruct (dict_get_fill_type_map ty) as (label & -> & Hlabel).
  destruct (MSO_FILL_TYPE_eqb ty SOLID).
  2:{ intros [= <-]. exact Hlabel. }
  destruct (fore_color fl) as [color|e]; cbn [rbind]; try discriminate.
  pose proof (present_and_set_cases (rgb color)) as Hrgb.
  pose proof (present_and_set_cases (theme_color color)) as Hth.
  destruct (rgb color) as [[c|]| |e]; rewrite Hrgb; cbn [rbind getattr];
    try discriminate.
  - intros [= <-]. discriminate.
  - destruct (theme_color color) as [[i|]| |e]; rewrite Hth; cbn [rbind getattr];
      try discriminate.
    + destruct (brightness color); cbn [rbind]; try discriminate.
      intros [= <-]. discriminate.
    + intros [= <-]. exact Hlabel.
    + intros [= <-]. exact Hlabel.
  - destruct (theme_color color) as [[i|]| |e]; rewrite Hth; cbn [rbind getattr];
      try discriminate.
    + destruct (brightness color); cbn [rbind]; try discriminate.
      intros [= <-]. discriminate.
    + intros [= <-]. exact Hlabel.
    + intros [= <-]. exact Hlabel.
Qed.

Lemma classifier_returns (E : list (string * Z)) (shape : Shape) :
  exists s, get_shape_fill_color_info E shape = Ok s /\ s <> "".
Proof.
  unfold get_shape_fill_color_info, object_of.
  cbn [object_fill object_shape_type].
  destruct (fill shape) as [fl|]; cbn [hasattr getattr rbind negb].
  - destruct (inspect_fill fl) as [s|e] eqn:Hins; cbn [try_except].
    + exists s. split; [reflexivity | exact (inspect_fill_nonempty _ _ Hins)].
    + eexists. split; [reflexivity | discriminate].
  - destruct (kind_is E "TABLE" _); [|destruct (kind_is E "CHART" _);
      [|destruct (_ || _)]]; eexists; (split; [reflexivity | discriminate]).
Qed.

(** C4, as the code has it.  The two reads before the [try] decide: when
    the object has a [fill] that can be read, or has none and its kind
    can be read, the classifier returns a string that is not empty, and
    the error description whenever the inspection of the fill raises;
    an exception of the [fill] probe, or of the kind of an object
    without [fill], comes out of the classifier. *)
Theorem classifier_outcomes (E : list (string * Z)) (obj : ShapeObject) :
  ((exists fl, object_fill obj = Value fl) \/
   (object_fill obj = Missing /\ exists kind, object_shape_type obj = Ok kind) ->
   exists s, get_shape_fill_color_info E obj = Ok s /\ s <> "") /\
  (forall fl e,
     object_fill obj = Value fl -> inspect_fill fl = Raise e ->
     get_shape_fill_color_info E obj = Ok "Fill Info Error (General)") /\
  (forall e,
     object_fill obj = Faulty e ->
     get_shape_fill_color_info E obj = Raise e) /\
  (forall e,
     object_fill obj = Missing -> object_shape_type obj = Raise e ->
     get_shape_fill_color_info E obj = Raise e).
Proof.
  unfold get_shape_fill_color_info.
  split; [|split; [|split]].
  - intros [[fl ->] | [-> [kind ->]]]; cbn [hasattr getattr rbind negb].
    + destruct (inspect_fill fl) as [s|e] eqn:Hins; cbn [try_except].
      * exists s. split; [reflexivity | exact (inspect_fill_nonempty _ _ Hins)].
      * eexists. split; [reflexivity | discriminate].
    + destruct (kind_is E "TABLE" _); [|destruct (kind_is E "CHART" _);
        [|destruct (_ || _)]]; eexists; (split; [reflexivity | discriminate]).
  - intros fl e -> Hins. cbn [hasattr getattr rbind negb]. now rewrite Hins.
  - intros e ->. reflexivity.
  - intros e -> ->. reflexivity.
Qed.

Lemma classifier_outcomes_witness :
  get_shape_fill_color_info pptx_MSO_SHAPE_TYPE
    (with_fill broken_fill (bare_shape 1 1))
  = Ok "Fill Info Error (General)" /\
  exists s,
    get_shape_fill_color_info pptx_MSO_SHAPE_TYPE smartart_shape = Ok s /\
    s <> "".
Proof.
  split.
  - apply (proj1 (proj2 (classifier_outcomes pptx_MSO_SHAPE_TYPE
                  (with_fill broken_fill (bare_shape 1 1))))
               broken_fill ValueError); reflexivity.
  - apply (proj1 (classifier_outcomes pptx_MSO_SHAPE_TYPE smartart_shape)).
    right. split; [reflexivity | eexists; reflexivity].
Defined.

(** C4, as stated, fails: an object without [fill] whose kind cannot be
    read, and an object whose [fill] getter raises, make the classifier
    raise. *)
Lemma classifier_raises :
  get_shape_fill_color_info pptx_MSO_SHAPE_TYPE kindless_object
  = Raise NotImplementedError /\
  get_shape_fill_color_info pptx_MSO_SHAPE_TYPE faulty_fill_object
  = Raise (OtherException "InvalidXmlError").
Proof. split; reflexivity. Qed.

(** C8.  With python-pptx's enumeration, which has no GRAPHIC_FRAME
    member and whose member of value 6 is GROUP, a graphic frame that is
    neither table nor chart (kind [None], or an embedded OLE object,
    kind 7) gets the generic sentinel, and a group gets the sentinel of
    the graphic frames. *)
Theorem graphic_frame_sentinel_misses :
  enum_member pptx_MSO_SHAPE_TYPE "GRAPHIC_FRAME" = None /\
  find (fun m => snd m =? 6) pptx_MSO_SHAPE_TYPE = Some ("GROUP", 6) /\
  get_shape_fill_color_info pptx_MSO_SHAPE_TYPE smartart_shape
  = Ok "Fill Attribute Missing / Other Type" /\
  get_shape_fill_color_info pptx_MSO_SHAPE_TYPE (bare_shape 3 7)
  = Ok "Fill Attribute Missing / Other Type" /\
  get_shape_fill_color_info pptx_MSO_SHAPE_TYPE (bare_shape 4 6)
  = Ok "Graphic Frame (Fill N/A)".
Proof. repeat apply conj; reflexivity. Qed.

(** ** Printed numbers *)

Lemma string_app_assoc (a b c : string) : (a ++ b) ++ c = a ++ (b ++ c).
Proof. induction a as [|x a IH]; cbn; [reflexivity | now rewrite IH]. Qed.

Lemma read_str_of_int (z : Z) : read_int (str_of_int z) = Some z.
Proof.
  unfold read_int, str_of_int. rewrite NilZero.isi.
  - cbn [option_map]. now rewrite DecimalZ.of_to.
  - destruct z; cbn; [discriminate | | discriminate].
    intros [= H]. exact (Unsigned.to_uint_nonnil _ H).
  - destruct z; cbn; [discriminate | discriminate |].
    intros [= H]. exact (Unsigned.to_uint_nonnil _ H).
Qed.

Lemma two_digits_spec (n : Z) :
  0 <= n < 100 ->
  two_digits n
  = String (digit_char (n / 10)) (String (digit_char (n mod 10)) "").
Proof.
  intros Hn.
  assert (Hall : forallb (fun k =>
            String.eqb (two_digits (Z.of_nat k))
              (String (digit_char (Z.of_nat k / 10))
                      (String (digit_char (Z.of_nat k mod 10)) "")))
            (seq 0 100) = true) by (vm_compute; reflexivity).
  rewrite forallb_forall in Hall.
  specialize (Hall (Z.to_nat n)). rewrite Z2Nat.id in Hall by lia.
  apply String.eqb_eq. apply Hall. apply in_seq. lia.
Qed.

Lemma hundredths_nonneg (m : positive) (e : Z) : 0 <= hundredths m e.
Proof.
  unfold hundredths. destruct (0 <=? e) eqn:He.
  - apply Z.leb_le in He.
    assert (0 < 2 ^ e) by (apply Z.pow_pos_nonneg; lia). nia.
  - apply Z.leb_gt in He.
    assert (Hd : 0 < 2 ^ (- e)) by (apply Z.pow_pos_nonneg; lia).
    unfold round_half_even.
    assert (0 <= Z.pos m * 100 / 2 ^ (- e)) by (apply Z.div_pos; lia).
    destruct (_ ?= _); [destruct (Z.even _) | | ]; lia.
Qed.

(** What [:.2f] prints for a finite float: the sign, the integer part,
    a point and exactly two digits, which together are the nearest
    hundredth. *)
Lemma format_2f_two_decimals (neg : bool) (m : positive) (e : Z) :
  exists q d1 d2,
    0 <= q /\ 0 <= d1 <= 9 /\ 0 <= d2 <= 9 /\
    nearest_hundredth m e (100 * q + 10 * d1 + d2) /\
    format_2f (S754_finite neg m e)
    = (if neg then "-" else "") ++ str_of_int q ++ "."
        ++ String (digit_char d1) (String (digit_char d2) "").
Proof.
  pose proof (hundredths_nonneg m e) as Hh.
  pose proof (hundredths_nearest m e) as Hnear.
  set (h := hundredths m e) in *.
  pose proof (Z.mod_pos_bound h 100 ltac:(lia)) as Hmod.
  exists (h / 100), ((h mod 100) / 10), ((h mod 100) mod 10).
  split; [apply Z.div_pos; lia|].
  split; [split; [apply Z.div_pos; lia|];
          assert (h mod 100 / 10 < 10) by (apply Z.div_lt_upper_bound; lia);
          lia|].
  split; [pose proof (Z.mod_pos_bound (h mod 100) 10 ltac:(lia)); lia|].
  split.
  - replace (100 * (h / 100) + 10 * (h mod 100 / 10) + h mod 100 mod 10)
      with h; [exact Hnear|].
    pose proof (Z.div_mod h 100 ltac:(lia)).
    pose proof (Z.div_mod (h mod 100) 10 ltac:(lia)). lia.
  - cbn [format_2f]. fold h. unfold fixed2.
    now rewrite (two_digits_spec (h mod 100)) by lia.
Qed.

(** C3, as the code has it.  A solid fill whose fore colour has an RGB
    value is described as "RGB(r,g,b)", the three bytes in decimal; one
    that has a theme colour and no RGB value is described by the theme
    colour as its member prints, name and index, and the brightness
    with exactly two decimals, the nearest hundredth; the member DARK_2,
    of index 3, with brightness 0.456 gives
    "ThemeColor(Type:DARK_2 (3), Brightness:0.46)". *)
Theorem solid_fill_description (E : list (string * Z)) (shape : Shape)
    (fl : FillFormat) (color : ColorFormat)
    (Hfill : fill shape = Some fl)
    (Hsolid : fill_type fl = Ok (Some SOLID))
    (Hcolor : fore_color fl = Ok color) :
  let no_rgb := rgb color = Missing \/ rgb color = Value None in
  let byte_value := fun b : byte => Z.of_N (Byte.to_N b) in
  (forall c, rgb color = Value (Some c) ->
     get_shape_fill_color_info E shape
     = Ok ("RGB(" ++ str_of_int (byte_value (red c)) ++ ","
             ++ str_of_int (byte_value (green c)) ++ ","
             ++ str_of_int (byte_value (blue c)) ++ ")") /\
     0 <= byte_value (red c) <= 255 /\
     0 <= byte_value (green c) <= 255 /\
     0 <= byte_value (blue c) <= 255) /\
  (rgb color = Value (Some {| red := xff; green := x00; blue := x80 |}) ->
   get_shape_fill_color_info E shape = Ok "RGB(255,0,128)") /\
  (forall z, read_int (str_of_int z) = Some z) /\
  (forall member b, no_rgb -> theme_color color = Value (Some member) ->
     brightness color = Ok b ->
     get_shape_fill_color_info E shape
     = Ok ("ThemeColor(Type:" ++ member_name member ++ " ("
             ++ str_of_int (member_value member) ++ "), Brightness:"
             ++ format_2f b ++ ")")) /\
  (forall neg m e, exists q d1 d2,
     0 <= q /\ 0 <= d1 <= 9 /\ 0 <= d2 <= 9 /\
     nearest_hundredth m e (100 * q + 10 * d1 + d2) /\
     format_2f (S754_finite neg m e)
     = (if neg then "-" else "") ++ str_of_int q ++ "."
         ++ String (digit_char d1) (String (digit_char d2) "")) /\
  (no_rgb -> theme_color color = Value (Some DARK_2) ->
   brightness color = Ok float_0_456 ->
   get_shape_fill_color_info E shape
   = Ok "ThemeColor(Type:DARK_2 (3), Brightness:0.46)").
Proof.
  cbv zeta.
  assert (Hrgb : forall c, rgb color = Value (Some c) ->
    get_shape_fill_color_info E shape
    = Ok ("RGB(" ++ str_of_int (Z.of_N (Byte.to_N (red c))) ++ ","
            ++ str_of_int (Z.of_N (Byte.to_N (green c))) ++ ","
            ++ str_of_int (Z.of_N (Byte.to_N (blue c))) ++ ")")).
  { intros c Hc.
    unfold get_shape_fill_color_info, object_of, inspect_fill.
    cbn [object_fill object_shape_type]. rewrite Hfill.
    cbn [hasattr getattr rbind negb]. rewrite Hsolid. cbn.
    rewrite Hcolor. cbn. rewrite Hc. reflexivity. }
  assert (Htheme : forall member b,
    rgb color = Missing \/ rgb color = Value None ->
    theme_color color = Value (Some member) -> brightness color = Ok b ->
    get_shape_fill_color_info E shape
    = Ok ("ThemeColor(Type:" ++ member_name member ++ " ("
            ++ str_of_int (member_value member) ++ "), Brightness:"
            ++ format_2f b ++ ")")).
  { intros member b Hno Hth Hb.
    unfold get_shape_fill_color_info, object_of, inspect_fill.
    cbn [object_fill object_shape_type]. rewrite Hfill.
    cbn [hasattr getattr rbind negb]. rewrite Hsolid. cbn.
    rewrite Hcolor. cbn.
    destruct Hno as [Hno | Hno]; rewrite Hno, Hth, Hb; cbn;
      unfold str_of_member; now rewrite !string_app_assoc. }
  split; [|split; [|split; [|split; [|split]]]].
  - intros c Hc. split; [exact (Hrgb c Hc)|].
    split; [apply byte_range|]. split; apply byte_range.
  - intros Hc. rewrite (Hrgb _ Hc). reflexivity.
  - exact read_str_of_int.
  - exact Htheme.
  - exact format_2f_two_decimals.
  - intros Hno Hth Hb. rewrite (Htheme DARK_2 float_0_456 Hno Hth Hb).
    reflexivity.
Qed.

Lemma solid_fill_description_witness :
  get_shape_fill_color_info pptx_MSO_SHAPE_TYPE
    (with_fill (solid (scheme_color DARK_2 float_0_456)) (bare_shape 1 1))
  = Ok "ThemeColor(Type:DARK_2 (3), Brightness:0.46)" /\
  get_shape_fill_color_info pptx_MSO_SHAPE_TYPE
    (with_fill (solid (rgb_color xff x00 x80)) (bare_shape 1 1))
  = Ok "RGB(255,0,128)".
Proof.
  split.
  - apply (solid_fill_description pptx_MSO_SHAPE_TYPE
             (with_fill (solid (scheme_color DARK_2 float_0_456)) (bare_shape 1 1))
             (solid (scheme_color DARK_2 float_0_456))
             (scheme_color DARK_2 float_0_456)
             eq_refl eq_refl eq_refl);
      [left; reflexivity | reflexivity | reflexivity].
  - exact (proj1 (proj2 (solid_fill_description pptx_MSO_SHAPE_TYPE
             (with_fill (solid (rgb_color xff x00 x80)) (bare_shape 1 1))
             (solid (rgb_color xff x00 x80)) (rgb_color xff x00 x80)
             eq_refl eq_refl eq_refl)) eq_refl).
Defined.

(** C3, as stated, fails: for the theme colour of index 3 and brightness
    0.456 the description names the member, "DARK_2 (3)", not the bare
    index. *)
Lemma theme_colour_prints_member :
  get_shape_fill_color_info pptx_MSO_SHAPE_TYPE
    (with_fill (solid (scheme_color DARK_2 float_0_456)) (bare_shape 1 1))
  = Ok "ThemeColor(Type:DARK_2 (3), Brightness:0.46)" /\
  member_value DARK_2 = 3 /\
  get_shape_fill_color_info pptx_MSO_SHAPE_TYPE
    (with_fill (solid (scheme_color DARK_2 float_0_456)) (bare_shape 1 1))
  <> Ok "ThemeColor(Type:3, Brightness:0.46)".
Proof. split; [reflexivity | split; [reflexivity | discriminate]]. Qed.

(* ================================================================== *)
(** * Trimming and joining *)

Lemma lstrip_head (s : string) (c : ascii) (r : string) :
  lstrip s = String c r -> isspace c = false.
Proof.
  induction s as [|a s IH]; cbn; [discriminate|].
  destruct (isspace a) eqn:Ha; [exact IH|].
  intros [= <- <-]. exact Ha.
Qed.

Lemma rstrip_head (s : string) (c : ascii) (r : string) :
  rstrip s = String c r -> exists s', s = String c s'.
Proof.
  destruct s as [|a s]; cbn; [discriminate|].
  destruct (rstrip s); [destruct (isspace a); [discriminate|]|];
    intros [= <- <-]; eexists; reflexivity.
Qed.

Lemma strip_head (s : string) (c : ascii) (r : string) :
  strip s = String c r -> isspace c = false.
Proof.
  unfold strip. intros H.
  destruct (rstrip_head _ _ _ H) as [s' Hs'].
  exact (lstrip_head _ _ _ Hs').
Qed.

Lemma srev_rstrip_head (s : string) :
  rstrip s <> "" ->
  exists c r, srev (rstrip s) = String c r /\ isspace c = false.
Proof.
  induction s as [|a s IH]; cbn; [congruence|].
  destruct (rstrip s) as [|b t] eqn:Hr.
  - destruct (isspace a) eqn:Ha; [congruence|].
    intros _. exists a, "". split; [reflexivity | exact Ha].
  - intros _. destruct IH as (c & r & Hrev & Hc); [discriminate|].
    exists c, (r ++ String a ""). split; [|exact Hc].
    change (srev (String a (String b t))) with (srev (String b t) ++ String a "").
    rewrite Hrev. reflexivity.
Qed.

Lemma prefix_bar_false (s : string) :
  (forall c r, s = String c r -> isspace c = false) ->
  String.prefix " | " s = false.
Proof.
  intros H. destruct s as [|c r]; [reflexivity|].
  cbn [String.prefix]. destruct (ascii_dec " " c) as [<-|]; [|reflexivity].
  specialize (H _ _ eq_refl). discriminate.
Qed.

(** A trimmed text neither starts nor ends with the delimiter. *)
Lemma strip_no_delimiter (t : string) :
  startswith (strip t) " | " = false /\ endswith (strip t) " | " = false.
Proof.
  unfold startswith, endswith. split.
  - apply prefix_bar_false. intros c r. apply strip_head.
  - change (srev " | ") with " | ". apply prefix_bar_false.
    intros c r Hrev. unfold strip in *.
    destruct (string_dec (rstrip (lstrip t)) "") as [He|Hne].
    + rewrite He in Hrev. discriminate.
    + destruct (srev_rstrip_head _ Hne) as (c' & r' & Hrev' & Hc').
      rewrite Hrev' in Hrev. injection Hrev as <- <-. exact Hc'.
Qed.

Lemma fold_append_stripped {A} (g : A -> string) (l : list A) (acc : list string) :
  fold_left (fun parts x => append_stripped parts (g x)) l acc
  = (acc ++ filter truthy (map strip (map g l)))%list.
Proof.
  revert acc. induction l as [|x l IH]; intros acc; cbn.
  - now rewrite app_nil_r.
  - rewrite IH. unfold append_stripped.
    destruct (truthy (strip (g x))); [|reflexivity].
    now rewrite <- app_assoc.
Qed.

Lemma fold_cells_append_stripped (l : list Row) (acc : list string) :
  fold_left (fun parts row =>
               fold_left (fun parts cell => append_stripped parts (cell_text cell))
                         (cells row) parts) l acc
  = (acc ++ filter truthy
              (map strip (flat_map (fun row => map cell_text (cells row)) l)))%list.
Proof.
  revert acc. induction l as [|row l IH]; intros acc; cbn.
  - now rewrite app_nil_r.
  - rewrite IH, fold_append_stripped, map_app, filter_app, app_assoc.
    reflexivity.
Qed.

(** The parts that are joined: the non-empty trimmed texts of the shape,
    unless the shape's kind says table and [shape.table] cannot be read. *)
Lemma text_parts_of_shape_spec (E : list (string * Z)) (shape : Shape) :
  text_parts_of_shape E shape
  = if is_table E shape && negb (is_not_None (table shape))
    then Raise AttributeError
    else Ok (filter truthy (map strip (shape_texts E shape))).
Proof.
  unfold text_parts_of_shape, shape_texts, has_text_frame.
  destruct (text_frame shape) as [tf|]; cbn [getopt rbind];
    destruct (is_table E shape); cbn [andb];
    try destruct (table shape) as [tbl|]; cbn [getopt rbind is_not_None negb];
    rewrite ?fold_append_stripped, ?fold_cells_append_stripped,
      ?map_app, ?filter_app, ?app_nil_r; reflexivity.
Qed.

Lemma filter_truthy_map_strip (l : list string) :
  filter truthy (map strip l)
  = map strip (filter (fun t => truthy (strip t)) l).
Proof.
  induction l as [|t l IH]; cbn; [reflexivity|].
  destruct (truthy (strip t)); cbn; now rewrite IH.
Qed.

(** C7.  Calling the concatenator twice gives the same outcome twice;
    when at most one of the shape's texts is non-empty after trimming,
    the result neither starts nor ends with " | "; the result is empty
    for a shape with no text frame that is no table, and for a shape all
    of whose texts are empty after trimming. *)
Theorem concatenator_properties (E : list (string * Z)) (shape : Shape) :
  (first <- get_all_text_from_shape E shape ;;
   second <- get_all_text_from_shape E shape ;;
   Ok (first, second))%res
  = (first <- get_all_text_from_shape E shape ;; Ok (first, first))%res /\
  (forall out,
     get_all_text_from_shape E shape = Ok out ->
     (List.length (filter (fun t => truthy (strip t)) (shape_texts E shape)) <= 1)%nat ->
     startswith out " | " = false /\ endswith out " | " = false) /\
  (has_text_frame shape = false -> is_table E shape = false ->
   get_all_text_from_shape E shape = Ok "") /\
  (forall out,
     get_all_text_from_shape E shape = Ok out ->
     (forall t, In t (shape_texts E shape) -> strip t = "") ->
     out = "").
Proof.
  split; [|split; [|split]].
  - destruct (get_all_text_from_shape E shape) as [out|e] eqn:H; reflexivity.
  - intros out. unfold get_all_text_from_shape.
    rewrite text_parts_of_shape_spec.
    destruct (_ && _); cbn [rbind]; [discriminate|].
    intros [= <-] Hlen. rewrite filter_truthy_map_strip.
    destruct (filter _ (shape_texts E shape)) as [|t [|t' l]];
      cbn in Hlen; [split; reflexivity | | lia].
    cbn [map join String.concat]. apply strip_no_delimiter.
  - intros Htf Htbl. unfold get_all_text_from_shape.
    rewrite text_parts_of_shape_spec. rewrite Htbl. cbn [andb rbind].
    unfold shape_texts. rewrite Htbl.
    unfold has_text_frame in Htf. destruct (text_frame shape); [discriminate|].
    reflexivity.
  - intros out. unfold get_all_text_from_shape.
    rewrite text_parts_of_shape_spec.
    destruct (_ && _); cbn [rbind]; [discriminate|].
    intros [= <-] Hall. rewrite filter_truthy_map_strip.
    replace (filter _ (shape_texts E shape)) with (@nil string); [reflexivity|].
    symmetry. induction (shape_texts E shape) as [|t l IH]; [reflexivity|].
    cbn. rewrite (Hall t (or_introl eq_refl)). cbn.
    apply IH. intros t' Hin. apply Hall. now right.
Qed.

(* ================================================================== *)
(** * Loops that append *)

Lemma run_all_cases {X A} (r : A -> res unit) (f : A -> list X) (l : list A) :
  (forallb (fun x => succeeds (r x)) l = true /\
   run_all r f l = (Ok tt, flat_map f l)) \/
  (forallb (fun x => succeeds (r x)) l = false /\
   exists e partial, run_all r f l = (Raise e, partial)).
Proof.
  induction l as [|x l IH]; cbn [forallb run_all flat_map]; [now left|].
  destruct (r x) as [[]|e]; cbn [succeeds andb].
  - destruct IH as [[Hall ->] | [Hall (e & p & ->)]]; [left | right];
      (split; [exact Hall|]); [reflexivity | eexists _, _; reflexivity].
  - right. split; [reflexivity | eexists _, _; reflexivity].
Qed.

Lemma run_all_total {X A} (f : A -> list X) (l : list A) :
  run_all (fun _ => Ok tt) f l = (Ok tt, flat_map f l).
Proof.
  destruct (run_all_cases (fun _ => Ok tt) f l) as [[_ H] | [H _]]; [exact H|].
  exfalso. induction l; cbn in H; [discriminate | auto].
Qed.

Section EmittingFacts.

Context {S X : Type} (app : S -> list X -> S).
Hypothesis app_nil : forall s, app s [] = s.
Hypothesis app_app : forall s a b, app (app s a) b = app s (a ++ b)%list.

Lemma emits_ret {A} (a : A) : emits app (ret a) (Ok a) [].
Proof. intros s. unfold ret. now rewrite app_nil. Qed.

Lemma emits_lift {A} (r : res A) : emits app (lift r) r [].
Proof. intros s. unfold lift. now rewrite app_nil. Qed.

Lemma emits_bind {A B} (c : M S A) (k : A -> M S B) a xs r ys :
  emits app c (Ok a) xs -> emits app (k a) r ys ->
  emits app (bind c k) r (xs ++ ys)%list.
Proof.
  intros Hc Hk s. unfold bind. rewrite Hc, Hk. now rewrite app_app.
Qed.

Lemma emits_bind_raise {A B} (c : M S A) (k : A -> M S B) e xs :
  emits app c (Raise e) xs -> emits app (bind c k) (Raise e) xs.
Proof. intros Hc s. unfold bind. now rewrite Hc. Qed.

Lemma emits_for_each {A} (body : A -> M S unit) r f (l : list A) :
  (forall x, emits app (body x) (r x) (f x)) ->
  emits app (for_each l body) (fst (run_all r f l)) (snd (run_all r f l)).
Proof.
  intros Hbody. induction l as [|x l IH]; cbn [for_each run_all fst snd].
  - apply emits_ret.
  - specialize (Hbody x). destruct (r x) as [[]|e]; cbn [fst snd].
    + exact (emits_bind _ _ _ _ _ _ Hbody IH).
    + exact (emits_bind_raise _ _ _ _ Hbody).
Qed.

Lemma for_enumerate_from_for_each {A} (body : Z -> A -> M S unit) i (l : list A) :
  for_enumerate_from i l body
  = for_each (enumerate_from i l) (fun ix => body (fst ix) (snd ix)).
Proof.
  revert i. induction l as [|x l IH]; intros i; cbn; [reflexivity|].
  now rewrite IH.
Qed.

Lemma emits_for_enumerate {A} (body : Z -> A -> M S unit) r f (l : list A) :
  (forall i x, emits app (body i x) (r (i, x)) (f (i, x))) ->
  emits app (for_enumerate l body)
        (fst (run_all r f (enumerate l))) (snd (run_all r f (enumerate l))).
Proof.
  intros Hbody. unfold for_enumerate, enumerate.
  rewrite for_enumerate_from_for_each. apply emits_for_each.
  intros [i x]. apply Hbody.
Qed.

Lemma emits_for_enumerate_total {A} (body : Z -> A -> M S unit) f (l : list A) :
  (forall i x, emits app (body i x) (Ok tt) (f (i, x))) ->
  emits app (for_enumerate l body) (Ok tt) (flat_map f (enumerate l)).
Proof.
  intros Hbody.
  pose proof (emits_for_enumerate body (fun _ => Ok tt) f l Hbody) as H.
  now rewrite run_all_total in H.
Qed.

End EmittingFacts.


(* ================================================================== *)
(** * The text-run pass, read as a list of rows *)

Lemma buffer_app_app (s a b : buffer) : ((s ++ a) ++ b = s ++ (a ++ b))%list.
Proof. now rewrite app_assoc. Qed.

Lemma writerow_emits (row : list pyval) : emits_rows (writerow row) (Ok tt) [row].
Proof. intros s. reflexivity. Qed.

(** The two innermost loops write the rows of a text frame. *)
Lemma frame_loop_emits (slide_idx sid : Z) (cellpos : option (Z * Z)) (tf : TextFrame) :
  emits_rows
    (for_enumerate (paragraphs tf) (fun para_idx p =>
       for_enumerate (runs p) (fun run_idx run =>
         if truthy (strip (run_text run)) then
           writerow (text_row slide_idx sid cellpos para_idx run_idx
                              (strip (run_text run)))
         else ret tt)))
    (Ok tt) (frame_rows slide_idx sid cellpos tf).
Proof.
  unfold frame_rows.
  apply (emits_for_enumerate_total _ (@app_nil_r _) buffer_app_app
           _ (fun ip => flat_map _ (enumerate (runs (snd ip))))).
  intros para_idx p.
  apply (emits_for_enumerate_total _ (@app_nil_r _) buffer_app_app
           _ (fun ir => if nonempty_run (snd ir) then [_] else [])).
  intros run_idx run. unfold nonempty_run. cbn [fst snd].
  destruct (truthy (strip (run_text run)));
    [apply writerow_emits | apply (emits_ret _ (@app_nil_r _))].
Qed.

Lemma table_loop_emits (slide_idx sid : Z) (tbl : Table) :
  emits_rows
    (for_enumerate (rows tbl) (fun r_idx row =>
       for_enumerate (cells row) (fun c_idx cell =>
         for_enumerate (paragraphs (cell_text_frame cell)) (fun para_idx p =>
           for_enumerate (runs p) (fun run_idx run =>
             if truthy (strip (run_text run)) then
               writerow (text_row slide_idx sid (Some (r_idx, c_idx))
                                  para_idx run_idx (strip (run_text run)))
             else ret tt)))))
    (Ok tt) (table_rows slide_idx sid tbl).
Proof.
  unfold table_rows.
  apply (emits_for_enumerate_total _ (@app_nil_r _) buffer_app_app
           _ (fun ir => flat_map _ (enumerate (cells (snd ir))))).
  intros r_idx row.
  apply (emits_for_enumerate_total _ (@app_nil_r _) buffer_app_app
           _ (fun ic => frame_rows slide_idx sid (Some (r_idx, fst ic))
                                   (cell_text_frame (snd ic)))).
  intros c_idx cell. apply frame_loop_emits.
Qed.

(** What the body of the shape loop does for one shape. *)
Lemma text_shape_body_emits (E : list (string * Z)) (slide_idx : Z) (shape : Shape) :
  emits_rows
    (if is_line E shape then ret tt
     else
       let shape_id := shape_id shape in
       ((if has_text_frame shape then
           tf <- lift (getopt (text_frame shape)) ;;
           for_enumerate (paragraphs tf) (fun para_idx p =>
             for_enumerate (runs p) (fun run_idx run =>
               if truthy (strip (run_text run)) then
                 writerow [ PyInt slide_idx; PyInt shape_id; PyBool false;
                            PyNone; PyNone; PyInt para_idx; PyInt run_idx;
                            PyStr (strip (run_text run)) ]
               else ret tt))
         else ret tt) ;;
        (if is_table E shape then
           tbl <- lift (getopt (table shape)) ;;
           for_enumerate (rows tbl) (fun r_idx row =>
             for_enumerate (cells row) (fun c_idx cell =>
               for_enumerate (paragraphs (cell_text_frame cell)) (fun para_idx p =>
                 for_enumerate (runs p) (fun run_idx run =>
                   if truthy (strip (run_text run)) then
                     writerow [ PyInt slide_idx; PyInt shape_id; PyBool true;
                                PyInt r_idx; PyInt c_idx; PyInt para_idx;
                                PyInt run_idx; PyStr (strip (run_text run)) ]
                   else ret tt))))
         else ret tt))%pass)
    (if walkable E shape then Ok tt else Raise AttributeError)
    (shape_text_rows E slide_idx shape).
Proof.
  unfold walkable, shape_text_rows, has_text_frame.
  destruct (is_line E shape); cbn [orb negb];
    [apply (emits_ret _ (@app_nil_r _))|].
  cbv zeta.
  assert (Hframe : emits_rows
    (if match text_frame shape with Some _ => true | None => false end
     then
         (tf <- lift (getopt (text_frame shape)) ;;
          for_enumerate (paragraphs tf) (fun para_idx p =>
            for_enumerate (runs p) (fun run_idx run =>
              if truthy (strip (run_text run)) then
                writerow (text_row slide_idx (shape_id shape) None para_idx
                                   run_idx (strip (run_text run)))
              else ret tt)))%pass
     else ret tt)
    (Ok tt)
    (match text_frame shape with
     | Some tf => frame_rows slide_idx (shape_id shape) None tf
     | None => []
     end)).
  { destruct (text_frame shape) as [tf|]; [|apply (emits_ret _ (@app_nil_r _))].
    exact (emits_bind _ buffer_app_app _ _ _ _ _ _
             (emits_lift _ (@app_nil_r _) (Ok tf))
             (frame_loop_emits slide_idx (shape_id shape) None tf)). }
  destruct (is_table E shape); cbn [negb orb].
  - destruct (table shape) as [tbl|]; cbn [is_not_None].
    + refine (emits_bind _ buffer_app_app _ _ _ _ _ _ Hframe _).
      exact (emits_bind _ buffer_app_app _ _ _ _ _ _
               (emits_lift _ (@app_nil_r _) (Ok tbl))
               (table_loop_emits slide_idx (shape_id shape) tbl)).
    + refine (emits_bind _ buffer_app_app _ _ _ _ _ _ Hframe _).
      exact (emits_bind_raise _ _ _ _ _
               (emits_lift _ (@app_nil_r _) (Raise AttributeError))).
  - refine (emits_bind _ buffer_app_app _ _ _ _ _ _ Hframe _).
    apply (emits_ret _ (@app_nil_r _)).
Qed.

Lemma run_all_shapes {X} (E : list (string * Z)) (g : Shape -> list X)
    (l : list Shape) :
  (forallb (walkable E) l = true /\
   run_all (walk_result E) g l = (Ok tt, flat_map g l)) \/
  (forallb (walkable E) l = false /\
   exists e partial, run_all (walk_result E) g l = (Raise e, partial)).
Proof.
  replace (forallb (walkable E) l)
    with (forallb (fun x => succeeds (walk_result E x)) l).
  - apply run_all_cases.
  - induction l as [|x l IH]; cbn; [reflexivity|].
    rewrite IH. unfold walk_result. now destruct (walkable E x).
Qed.

(** The two outer loops: all rows when every shape can be walked, an
    exception otherwise. *)
Lemma run_all_slides {X} (E : list (string * Z)) (g : Z -> Shape -> list X)
    (l : list Slide) (i : Z) :
  let inner := fun isl : Z * Slide =>
                 run_all (walk_result E) (g (fst isl)) (shapes (snd isl)) in
  let outer := run_all (fun isl => fst (inner isl)) (fun isl => snd (inner isl))
                       (enumerate_from i l) in
  (forallb (fun slide => forallb (walkable E) (shapes slide)) l = true /\
   outer = (Ok tt, flat_map (fun isl => flat_map (g (fst isl)) (shapes (snd isl)))
                            (enumerate_from i l))) \/
  (forallb (fun slide => forallb (walkable E) (shapes slide)) l = false /\
   exists e partial, outer = (Raise e, partial)).
Proof.
  cbv zeta. revert i.
  induction l as [|slide l IH]; intros i;
    cbn [enumerate_from run_all forallb flat_map fst snd]; [now left|].
  destruct (run_all_shapes E (g i) (shapes slide))
    as [[Hall ->] | [Hall (e & p & ->)]]; rewrite Hall; cbn [fst snd andb].
  - destruct (IH (i + 1)) as [[Hrest ->] | [Hrest (e & p & ->)]];
      [left | right]; (split; [exact Hrest|]);
      [reflexivity | eexists _, _; reflexivity].
  - right. split; [reflexivity | eexists _, _; reflexivity].
Qed.

Lemma text_body_emits (E : list (string * Z)) (f : UploadedFile) (prs : Presentation) :
  load f = Ok prs ->
  let inner := fun isl : Z * Slide =>
                 run_all (walk_result E) (shape_text_rows E (fst isl))
                         (shapes (snd isl)) in
  let outer := run_all (fun isl => fst (inner isl)) (fun isl => snd (inner isl))
                       (enumerate (slides prs)) in
  emits_rows (text_details_body E f) (fst outer)
             (map PyStr text_headers :: snd outer).
Proof.
  intros Hload. cbv zeta. unfold text_details_body. rewrite Hload.
  refine (emits_bind _ buffer_app_app _ _ _ _ _ _
            (emits_lift _ (@app_nil_r _) (Ok prs)) _).
  refine (emits_bind _ buffer_app_app _ _ _ [_] _ _ (writerow_emits _) _).
  apply (emits_for_enumerate _ (@app_nil_r _) buffer_app_app).
  intros slide_idx slide.
  apply (emits_for_each _ (@app_nil_r _) buffer_app_app).
  intros shape. apply text_shape_body_emits.
Qed.

(** The text-run pass as a function of the document. *)
Lemma text_pass_spec (E : list (string * Z)) (f : UploadedFile) :
  generate_text_details_tsv E f
  = match load f with
    | Raise _ => None
    | Ok prs =>
        if walkable_presentation E prs
        then Some (map PyStr text_headers :: text_data_rows E prs)
        else None
    end.
Proof.
  unfold generate_text_details_tsv.
  destruct (load f) as [prs|e] eqn:Hload.
  - rewrite (text_body_emits E f prs Hload []).
    unfold walkable_presentation, text_data_rows, enumerate.
    destruct (run_all_slides E (shape_text_rows E) (slides prs) 0)
      as [[Hall ->] | [Hall (e & p & ->)]]; rewrite Hall; reflexivity.
  - unfold text_details_body. rewrite Hload. reflexivity.
Qed.

(* ================================================================== *)
(** * The shape-summary pass, read as a list of rows *)

Lemma add_details_nil (s : summary_state) : add_details s [] = s.
Proof. destruct s. unfold add_details. cbn. now rewrite app_nil_r. Qed.

Lemma add_details_app (s : summary_state) (a b : list rowdict) :
  add_details (add_details s a) b = add_details s (a ++ b)%list.
Proof. unfold add_details. cbn. now rewrite app_assoc. Qed.

(** The concatenator fails exactly on a shape whose kind says table and
    whose table cannot be read. *)
Lemma get_all_text_from_shape_spec (E : list (string * Z)) (shape : Shape) :
  get_all_text_from_shape E shape
  = if is_table E shape && negb (is_not_None (table shape))
    then Raise AttributeError
    else Ok (join " | " (filter truthy (map strip (shape_texts E shape)))).
Proof.
  unfold get_all_text_from_shape. rewrite text_parts_of_shape_spec.
  now destruct (_ && _).
Qed.

(** The dictionaries one shape adds to [shape_details_list]. *)
Lemma summary_shape_body_emits (E : list (string * Z)) (slide_idx : Z) (shape : Shape) :
  emits_details
    (if is_line E shape then ret tt
     else
       let shape_type_str := shape_type_str E shape in
       (color <- lift (get_shape_fill_color_info E shape) ;;
        text <- lift (get_all_text_from_shape E shape) ;;
        append_details
          [ ("slide_index", PyInt slide_idx);
            ("shape_id", PyInt (shape_id shape));
            ("shape_name", PyStr (name_or_default (name shape)));
            ("shape_type", PyStr shape_type_str);
            ("color", PyStr color);
            ("x_coordinate_emu", geometry (shape_left shape));
            ("y_coordinate_emu", geometry (shape_top shape));
            ("width_emu", geometry (shape_width shape));
            ("height_emu", geometry (shape_height shape));
            ("text", PyStr text) ])%pass)
    (walk_result E shape)
    (if is_line E shape then []
     else if walkable E shape then [shape_details E slide_idx shape] else []).
Proof.
  unfold walk_result, walkable, shape_details.
  destruct (is_line E shape); cbn [orb negb];
    [apply (emits_ret _ add_details_nil)|].
  cbv zeta.
  destruct (classifier_returns E shape) as (color & Hcolor & _).
  rewrite Hcolor, get_all_text_from_shape_spec. cbn [value_or].
  refine (emits_bind _ add_details_app _ _ _ [] _ _
            (emits_lift _ add_details_nil (Ok color)) _).
  destruct (is_table E shape); cbn [negb orb andb];
    [destruct (table shape) as [tbl|]; cbn [is_not_None negb]|].
  - refine (emits_bind _ add_details_app _ _ _ [] _ _
              (emits_lift _ add_details_nil (Ok _)) _).
    intros s. reflexivity.
  - exact (emits_bind_raise _ _ _ _ _
             (emits_lift _ add_details_nil (Raise AttributeError))).
  - refine (emits_bind _ add_details_app _ _ _ [] _ _
              (emits_lift _ add_details_nil (Ok _)) _).
    intros s. reflexivity.
Qed.

Lemma summary_details_of_shapes (E : list (string * Z)) (i : Z) (l : list Shape) :
  forallb (walkable E) l = true ->
  flat_map (fun shape =>
              if is_line E shape then []
              else if walkable E shape then [shape_details E i shape] else []) l
  = map (fun shape => shape_details E i shape)
        (filter (fun shape => negb (is_line E shape)) l).
Proof.
  induction l as [|shape l IH]; cbn [forallb flat_map filter map]; [reflexivity|].
  intros [Hw Hl]%andb_prop. rewrite (IH Hl), Hw.
  now destruct (is_line E shape).
Qed.

Lemma summary_details_of_slides (E : list (string * Z)) (l : list Slide) (i : Z) :
  forallb (fun slide => forallb (walkable E) (shapes slide)) l = true ->
  map (dict_to_list csv_headers)
    (flat_map (fun isl : Z * Slide =>
       flat_map (fun shape =>
                   if is_line E shape then []
                   else if walkable E shape
                        then [shape_details E (fst isl) shape] else [])
                (shapes (snd isl)))
       (enumerate_from i l))
  = map (fun ish => dict_to_list csv_headers (shape_details E (fst ish) (snd ish)))
      (flat_map (fun isl : Z * Slide =>
         map (fun shape => (fst isl, shape))
             (filter (fun shape => negb (is_line E shape)) (shapes (snd isl))))
         (enumerate_from i l)).
Proof.
  revert i. induction l as [|slide l IH]; intros i;
    cbn [forallb enumerate_from flat_map fst snd]; [reflexivity|].
  intros [Hs Hl]%andb_prop.
  rewrite !map_app, (IH (i + 1) Hl), (summary_details_of_shapes E i _ Hs).
  now rewrite !map_map.
Qed.

(** The shape-summary pass as a function of the document. *)
Lemma summary_pass_spec (E : list (string * Z)) (f : UploadedFile) :
  generate_combined_shape_details_tsv E f
  = match seek0 f, load f with
    | Ok _, Ok prs =>
        if walkable_presentation E prs
        then Some (map PyStr csv_headers :: summary_data_rows E prs)
        else None
    | _, _ => None
    end.
Proof.
  unfold generate_combined_shape_details_tsv, shape_details_body.
  destruct (seek0 f) as [[]|e]; [|reflexivity].
  destruct (load f) as [prs|e]; [|reflexivity].
  unfold bind at 1 2. unfold lift at 1 2. unfold bind at 1.
  set (details := fun (i : Z) (shape : Shape) =>
         if is_line E shape then []
         else if walkable E shape then [shape_details E i shape] else []).
  pose proof (emits_for_enumerate _ add_details_nil add_details_app
     (fun slide_idx slide => for_each (shapes slide) _)
     (fun isl => fst (run_all (walk_result E) (details (fst isl)) (shapes (snd isl))))
     (fun isl => snd (run_all (walk_result E) (details (fst isl)) (shapes (snd isl))))
     (slides prs)
     (fun slide_idx slide =>
        emits_for_each _ add_details_nil add_details_app _ _ _ (shapes slide)
          (fun shape => summary_shape_body_emits E slide_idx shape))) as Hloop.
  rewrite Hloop. unfold walkable_presentation, summary_data_rows, visible_shapes, enumerate.
  destruct (run_all_slides E details (slides prs) 0)
    as [[Hall ->] | [Hall (e & p & ->)]]; rewrite Hall; cbn [fst snd];
    [|reflexivity].
  unfold writerows, add_details. cbn [output shape_details_list app].
  unfold details. now rewrite (summary_details_of_slides E _ 0 Hall).
Qed.

(* ================================================================== *)
(** * Properties of the two passes *)

(** C1.  A table shape of two rows and two columns with "A" in cell (0,0)
    and "B" in cell (1,1), alone on the only slide: the text-run pass
    writes the header and the rows (true, 0, 0, 0, 0, "A") and
    (true, 1, 1, 0, 0, "B"); the concatenator returns "A | B", and that
    is the text column of the shape's row in the shape summary. *)
Theorem table_round_trip (E : list (string * Z)) (shape : Shape)
    (Htable : is_table E shape = true)
    (Hline : is_line E shape = false)
    (Hframe : text_frame shape = None)
    (Hcells : table shape = Some table_2x2) :
  generate_text_details_tsv E (file_of [[shape]])
  = Some [ map PyStr text_headers;
           [ PyInt 0; PyInt (shape_id shape); PyBool true; PyInt 0; PyInt 0;
             PyInt 0; PyInt 0; PyStr "A" ];
           [ PyInt 0; PyInt (shape_id shape); PyBool true; PyInt 1; PyInt 1;
             PyInt 0; PyInt 0; PyStr "B" ] ] /\
  get_all_text_from_shape E shape = Ok "A | B" /\
  exists row,
    generate_combined_shape_details_tsv E (file_of [[shape]])
    = Some [ map PyStr csv_headers; row ] /\
    column csv_headers "text" row = Some (PyStr "A | B").
Proof.
  assert (Hwalk : walkable E shape = true).
  { unfold walkable. rewrite Hcells. cbn. apply orb_true_r. }
  assert (Htext : get_all_text_from_shape E shape = Ok "A | B").
  { rewrite get_all_text_from_shape_spec. unfold shape_texts.
    rewrite Htable, Hframe, Hcells. reflexivity. }
  split; [|split; [exact Htext|]].
  - rewrite text_pass_spec. cbn [file_of load map].
    unfold walkable_presentation, text_data_rows. cbn [slides shapes forallb].
    rewrite Hwalk. cbn [andb enumerate enumerate_from flat_map fst snd shapes].
    unfold shape_text_rows. rewrite Htable, Hline, Hframe, Hcells.
    reflexivity.
  - exists (dict_to_list csv_headers (shape_details E 0 shape)). split.
    + rewrite summary_pass_spec. cbn [file_of load seek0 map].
      unfold walkable_presentation, summary_data_rows, visible_shapes.
      cbn [slides shapes forallb]. rewrite Hwalk.
      cbn [andb enumerate enumerate_from flat_map fst snd filter shapes].
      rewrite Hline. reflexivity.
    + unfold shape_details. rewrite Htext. reflexivity.
Qed.

Lemma table_round_trip_witness :
  generate_text_details_tsv pptx_MSO_SHAPE_TYPE
    (file_of [[table_shape 7 (Some table_2x2)]])
  = Some [ map PyStr text_headers;
           [ PyInt 0; PyInt 7; PyBool true; PyInt 0; PyInt 0;
             PyInt 0; PyInt 0; PyStr "A" ];
           [ PyInt 0; PyInt 7; PyBool true; PyInt 1; PyInt 1;
             PyInt 0; PyInt 0; PyStr "B" ] ] /\
  get_all_text_from_shape pptx_MSO_SHAPE_TYPE (table_shape 7 (Some table_2x2))
  = Ok "A | B".
Proof.
  pose proof (table_round_trip pptx_MSO_SHAPE_TYPE
                (table_shape 7 (Some table_2x2))
                eq_refl eq_refl eq_refl eq_refl) as H.
  split; [exact (proj1 H) | exact (proj1 (proj2 H))].
Defined.

(** C5.  When the body of a pass raises, the pass returns [None],
    whatever had been written until then: so it does when the document
    cannot be loaded, when the file cannot be rewound (second pass), and
    when some shape cannot be walked.  A pass that returns rows has not
    raised. *)
Theorem failed_pass_returns_nothing (E : list (string * Z)) (f : UploadedFile) :
  (forall e partial,
     text_details_body E f [] = (Raise e, partial) ->
     generate_text_details_tsv E f = None) /\
  (forall e partial,
     shape_details_body E f summary_start = (Raise e, partial) ->
     generate_combined_shape_details_tsv E f = None) /\
  (forall e,
     load f = Raise e ->
     generate_text_details_tsv E f = None /\
     generate_combined_shape_details_tsv E f = None) /\
  (forall e,
     seek0 f = Raise e -> generate_combined_shape_details_tsv E f = None) /\
  (forall prs,
     load f = Ok prs -> walkable_presentation E prs = false ->
     generate_text_details_tsv E f = None /\
     generate_combined_shape_details_tsv E f = None) /\
  (forall out,
     generate_text_details_tsv E f = Some out ->
     text_details_body E f [] = (Ok tt, out)) /\
  (forall out,
     generate_combined_shape_details_tsv E f = Some out ->
     exists final, shape_details_body E f summary_start = (Ok tt, final) /\
                   output final = out).
Proof.
  split; [|split; [|split; [|split; [|split; [|split]]]]].
  - unfold generate_text_details_tsv. intros e partial ->. reflexivity.
  - unfold generate_combined_shape_details_tsv. fold summary_start.
    intros e partial ->. reflexivity.
  - intros e Hload. rewrite text_pass_spec, summary_pass_spec, Hload.
    now destruct (seek0 f).
  - intros e Hseek. now rewrite summary_pass_spec, Hseek.
  - intros prs Hload Hwalk.
    rewrite text_pass_spec, summary_pass_spec, Hload, Hwalk.
    now destruct (seek0 f).
  - unfold generate_text_details_tsv.
    intros out. destruct (text_details_body E f []) as [[[]|e] s];
      [intros [= ->]; reflexivity | discriminate].
  - unfold generate_combined_shape_details_tsv. fold summary_start.
    intros out. destruct (shape_details_body E f summary_start) as [[[]|e] s];
      [intros [= <-]; eexists; split; reflexivity | discriminate].
Qed.

(** A text box with a run, then a shape of kind table whose table cannot
    be read: the body raises after the header and one row are written. *)
Lemma failed_pass_returns_nothing_witness :
  text_details_body pptx_MSO_SHAPE_TYPE
    (file_of [[text_shape 2 17 (Some "Title") "x"; table_shape 3 None]]) []
  = (Raise AttributeError,
     [ map PyStr text_headers;
       [ PyInt 0; PyInt 2; PyBool false; PyNone; PyNone; PyInt 0; PyInt 0;
         PyStr "x" ] ]) /\
  generate_text_details_tsv pptx_MSO_SHAPE_TYPE
    (file_of [[text_shape 2 17 (Some "Title") "x"; table_shape 3 None]]) = None /\
  generate_combined_shape_details_tsv pptx_MSO_SHAPE_TYPE
    (file_of [[text_shape 2 17 (Some "Title") "x"; table_shape 3 None]]) = None.
Proof.
  split; [reflexivity|]. split.
  - apply (proj1 (failed_pass_returns_nothing pptx_MSO_SHAPE_TYPE
             (file_of [[text_shape 2 17 (Some "Title") "x"; table_shape 3 None]]))
             AttributeError
             [ map PyStr text_headers;
               [ PyInt 0; PyInt 2; PyBool false; PyNone; PyNone; PyInt 0;
                 PyInt 0; PyStr "x" ] ]).
    reflexivity.
  - eapply (proj1 (proj2 (failed_pass_returns_nothing pptx_MSO_SHAPE_TYPE
             (file_of [[text_shape 2 17 (Some "Title") "x"; table_shape 3 None]])))
             AttributeError).
    reflexivity.
Defined.

(** ** Counting the rows of the text frames *)

Lemma count_flat_map {A B C} (p : B -> bool) (f : A -> list B)
    (g : A -> list C) (l : list A) :
  (forall x, List.length (filter p (f x)) = List.length (g x)) ->
  List.length (filter p (flat_map f l)) = List.length (flat_map g l).
Proof.
  intros H. induction l as [|x l IH]; cbn; [reflexivity|].
  now rewrite filter_app, !length_app, H, IH.
Qed.

Lemma count_flat_map_enumerate {A B C} (p : B -> bool) (f : Z * A -> list B)
    (g : A -> list C) (l : list A) (i : Z) :
  (forall j x, List.length (filter p (f (j, x))) = List.length (g x)) ->
  List.length (filter p (flat_map f (enumerate_from i l)))
  = List.length (flat_map g l).
Proof.
  intros H. revert i. induction l as [|x l IH]; intros i; cbn; [reflexivity|].
  now rewrite filter_app, !length_app, H, IH.
Qed.

Lemma flat_map_empty {A C} (l : list A) : flat_map (fun _ => @nil C) l = [].
Proof. induction l; cbn; auto. Qed.

Lemma flat_map_singletons {A} (q : A -> bool) (l : list A) :
  flat_map (fun x => if q x then [x] else []) l = filter q l.
Proof.
  induction l as [|x l IH]; cbn; [reflexivity|].
  rewrite IH. now destruct (q x).
Qed.

Lemma frame_rows_filter_length (slide_idx sid : Z) (cellpos : option (Z * Z)) (tf : TextFrame) :
  List.length (filter is_frame_row (frame_rows slide_idx sid cellpos tf))
  = match cellpos with
    | None => List.length (flat_map (fun p => filter nonempty_run (runs p))
                                    (paragraphs tf))
    | Some _ => 0%nat
    end.
Proof.
  unfold frame_rows, enumerate. destruct cellpos as [[r c]|].
  - rewrite (count_flat_map_enumerate _ _ (fun _ => @nil Run)).
    + now rewrite flat_map_empty.
    + intros j p.
      rewrite (count_flat_map_enumerate _ _ (fun _ => @nil Run)).
      * now rewrite flat_map_empty.
      * intros k run. cbn [fst snd]. now destruct (nonempty_run run).
  - apply count_flat_map_enumerate. intros j p. cbn [fst snd].
    rewrite <- (flat_map_singletons nonempty_run (runs p)).
    apply count_flat_map_enumerate. intros k run. cbn [fst snd].
    now destruct (nonempty_run run).
Qed.

Lemma table_rows_filter_length (slide_idx sid : Z) (tbl : Table) :
  List.length (filter is_frame_row (table_rows slide_idx sid tbl)) = 0%nat.
Proof.
  unfold table_rows, enumerate.
  rewrite (count_flat_map_enumerate _ _ (fun _ => @nil Run)).
  - now rewrite flat_map_empty.
  - intros j row.
    rewrite (count_flat_map_enumerate _ _ (fun _ => @nil Run)).
    + now rewrite flat_map_empty.
    + intros k cell. apply frame_rows_filter_length.
Qed.

(** C2.  In the output of the text-run pass, the rows whose
    is_table_cell is false are as many as the runs with non-empty trimmed
    text in the text frames of the shapes that are not connectors. *)
Theorem frame_row_count (E : list (string * Z)) (f : UploadedFile)
    (prs : Presentation) (out : buffer)
    (Hload : load f = Ok prs)
    (Hout : generate_text_details_tsv E f = Some out) :
  List.length (filter is_frame_row out)
  = List.length (nonempty_frame_runs E prs).
Proof.
  rewrite text_pass_spec, Hload in Hout.
  destruct (walkable_presentation E prs); [|discriminate].
  injection Hout as <-.
  change (filter is_frame_row (map PyStr text_headers :: text_data_rows E prs))
    with (filter is_frame_row (text_data_rows E prs)).
  unfold text_data_rows, nonempty_frame_runs, enumerate.
  apply count_flat_map_enumerate. intros i slide. cbn [fst snd].
  apply count_flat_map. intros shape. unfold shape_text_rows.
  destruct (is_line E shape); [reflexivity|].
  rewrite filter_app, length_app.
  assert (Htbl : List.length (filter is_frame_row
            (if is_table E shape
             then match table shape with
                  | Some tbl => table_rows i (shape_id shape) tbl
                  | None => []
                  end
             else [])) = 0%nat).
  { destruct (is_table E shape); [|reflexivity].
    destruct (table shape); [apply table_rows_filter_length | reflexivity]. }
  rewrite Htbl, Nat.add_0_r.
  destruct (text_frame shape) as [tf|]; [|reflexivity].
  apply (frame_rows_filter_length i (shape_id shape) None tf).
Qed.

Lemma frame_row_count_witness :
  generate_text_details_tsv pptx_MSO_SHAPE_TYPE
    (file_of [ [ text_shape 2 17 (Some "Title") "Hello";
                 text_shape 3 9 (Some "Connector") "skipped";
                 table_shape 4 (Some table_2x2) ];
               [ text_shape 2 1 None "   " ] ])
  = Some
      [ map PyStr text_headers;
        [ PyInt 0; PyInt 2; PyBool false; PyNone; PyNone; PyInt 0; PyInt 0;
          PyStr "Hello" ];
        [ PyInt 0; PyInt 4; PyBool true; PyInt 0; PyInt 0; PyInt 0; PyInt 0;
          PyStr "A" ];
        [ PyInt 0; PyInt 4; PyBool true; PyInt 1; PyInt 1; PyInt 0; PyInt 0;
          PyStr "B" ] ] /\
  List.length (filter is_frame_row
    [ map PyStr text_headers;
      [ PyInt 0; PyInt 2; PyBool false; PyNone; PyNone; PyInt 0; PyInt 0;
        PyStr "Hello" ];
      [ PyInt 0; PyInt 4; PyBool true; PyInt 0; PyInt 0; PyInt 0; PyInt 0;
        PyStr "A" ];
      [ PyInt 0; PyInt 4; PyBool true; PyInt 1; PyInt 1; PyInt 0; PyInt 0;
        PyStr "B" ] ]) = 1%nat.
Proof.
  split; [reflexivity|].
  exact (frame_row_count pptx_MSO_SHAPE_TYPE
           (file_of [ [ text_shape 2 17 (Some "Title") "Hello";
                        text_shape 3 9 (Some "Connector") "skipped";
                        table_shape 4 (Some table_2x2) ];
                      [ text_shape 2 1 None "   " ] ])
           _ _ eq_refl eq_refl).
Defined.

(** ** Where a row comes from *)

Lemma in_enumerate_from {A} (l : list A) (i j : Z) (x : A) :
  In (j, x) (enumerate_from i l) ->
  i <= j /\ nth_error l (Z.to_nat (j - i)) = Some x.
Proof.
  revert i. induction l as [|a l IH]; intros i; cbn [enumerate_from In];
    [tauto|].
  intros [[= <- <-] | Hin].
  - rewrite Z.sub_diag. split; [lia | reflexivity].
  - destruct (IH _ Hin) as [Hle Hnth]. split; [lia|].
    replace (Z.to_nat (j - i)) with (Datatypes.S (Z.to_nat (j - (i + 1)))) by lia.
    exact Hnth.
Qed.

Lemma visible_shapes_on_slide (E : list (string * Z)) (prs : Presentation)
    (i : Z) (shape : Shape) :
  In (i, shape) (visible_shapes E prs) ->
  on_slide prs i shape /\ is_line E shape = false.
Proof.
  unfold visible_shapes, enumerate. intros Hin.
  apply in_flat_map in Hin. destruct Hin as ([j slide] & Hslide & Hin).
  apply in_map_iff in Hin. destruct Hin as (s & [= <- <-] & Hs).
  apply filter_In in Hs. destruct Hs as [Hs Hline].
  apply in_enumerate_from in Hslide. destruct Hslide as [Hle Hnth].
  rewrite Z.sub_0_r in Hnth. cbn [fst snd] in *.
  split; [exists slide; auto | now destruct (is_line E s)].
Qed.

Lemma frame_rows_origin (i sid : Z) (cellpos : option (Z * Z)) (tf : TextFrame)
    (row : list pyval) :
  In row (frame_rows i sid cellpos tf) ->
  exists para_idx run_idx text, row = text_row i sid cellpos para_idx run_idx text.
Proof.
  unfold frame_rows. intros Hin.
  apply in_flat_map in Hin. destruct Hin as (ip & _ & Hin).
  apply in_flat_map in Hin. destruct Hin as (ir & _ & Hin).
  destruct (nonempty_run (snd ir)); [|contradiction].
  destruct Hin as [<- | []]. eauto.
Qed.

Lemma table_rows_origin (i sid : Z) (tbl : Table) (row : list pyval) :
  In row (table_rows i sid tbl) ->
  exists cellpos para_idx run_idx text,
    row = text_row i sid cellpos para_idx run_idx text.
Proof.
  unfold table_rows. intros Hin.
  apply in_flat_map in Hin. destruct Hin as (ir & _ & Hin).
  apply in_flat_map in Hin. destruct Hin as (ic & _ & Hin).
  apply frame_rows_origin in Hin. destruct Hin as (p & r & t & ->). eauto.
Qed.

(** Every data row of Stream A was written for a shape that is not
    skipped. *)
Lemma text_data_rows_origin (E : list (string * Z)) (prs : Presentation)
    (row : list pyval) :
  In row (text_data_rows E prs) ->
  exists i shape cellpos para_idx run_idx text,
    In (i, shape) (visible_shapes E prs) /\
    row = text_row i (shape_id shape) cellpos para_idx run_idx text.
Proof.
  unfold text_data_rows, visible_shapes. intros Hin.
  apply in_flat_map in Hin. destruct Hin as ([i slide] & Hslide & Hin).
  apply in_flat_map in Hin. destruct Hin as (shape & Hshape & Hin).
  cbn [fst snd] in *. unfold shape_text_rows in Hin.
  destruct (is_line E shape) eqn:Hline; [contradiction|].
  assert (Hvis : In (i, shape)
    (flat_map (fun isl : Z * Slide =>
       map (fun shape => (fst isl, shape))
           (filter (fun shape => negb (is_line E shape)) (shapes (snd isl))))
       (enumerate (slides prs)))).
  { apply in_flat_map. exists (i, slide). split; [exact Hslide|].
    cbn [fst snd]. apply in_map. apply filter_In. now rewrite Hline. }
  apply in_app_or in Hin. destruct Hin as [Hin | Hin].
  - destruct (text_frame shape) as [tf|]; [|contradiction].
    apply frame_rows_origin in Hin. destruct Hin as (p & r & t & ->).
    exists i, shape, None, p, r, t. auto.
  - destruct (is_table E shape); [|contradiction].
    destruct (table shape) as [tbl|]; [|contradiction].
    apply table_rows_origin in Hin. destruct Hin as (cp & p & r & t & ->).
    exists i, shape, cp, p, r, t. auto.
Qed.

Lemma text_row_columns (i sid : Z) cellpos para_idx run_idx text :
  column text_headers "slide_index" (text_row i sid cellpos para_idx run_idx text)
  = Some (PyInt i) /\
  column text_headers "shape_id" (text_row i sid cellpos para_idx run_idx text)
  = Some (PyInt sid).
Proof. destruct cellpos as [[r c]|]; split; reflexivity. Qed.

Lemma summary_row_columns (E : list (string * Z)) (i : Z) (shape : Shape) :
  let row := dict_to_list csv_headers (shape_details E i shape) in
  column csv_headers "slide_index" row = Some (PyInt i) /\
  column csv_headers "shape_id" row = Some (PyInt (shape_id shape)) /\
  column csv_headers "shape_name" row
  = Some (PyStr (name_or_default (name shape))) /\
  column csv_headers "shape_type" row = Some (PyStr (shape_type_str E shape)).
Proof. cbv zeta. repeat apply conj; reflexivity. Qed.

Lemma summary_rows (E : list (string * Z)) (f : UploadedFile)
    (prs : Presentation) (out : buffer) :
  load f = Ok prs ->
  generate_combined_shape_details_tsv E f = Some out ->
  out = map PyStr csv_headers :: summary_data_rows E prs.
Proof.
  intros Hload. rewrite summary_pass_spec, Hload.
  destruct (seek0 f); [|discriminate].
  destruct (walkable_presentation E prs); [|discriminate].
  now intros [= <-].
Qed.

Lemma text_rows (E : list (string * Z)) (f : UploadedFile)
    (prs : Presentation) (out : buffer) :
  load f = Ok prs ->
  generate_text_details_tsv E f = Some out ->
  out = map PyStr text_headers :: text_data_rows E prs.
Proof.
  intros Hload. rewrite text_pass_spec, Hload.
  destruct (walkable_presentation E prs); [|discriminate].
  now intros [= <-].
Qed.

Lemma unique_id_on_slide (prs : Presentation) (i : Z) (a b : Shape) :
  unique_ids prs -> on_slide prs i a -> on_slide prs i b ->
  shape_id a = shape_id b -> a = b.
Proof.
  intros Huniq (sa & _ & Hsa & Ha) (sb & _ & Hsb & Hb) Hid.
  rewrite Hsa in Hsb. injection Hsb as <-.
  specialize (Huniq sa (nth_error_In _ _ Hsa)).
  induction (shapes sa) as [|x l IH]; [contradiction|].
  cbn [map] in Huniq. inversion Huniq as [|? ? Hnotin Hnodup]; subst.
  destruct Ha as [<- | Ha], Hb as [<- | Hb]; auto.
  - exfalso. apply Hnotin. rewrite Hid. now apply in_map.
  - exfalso. apply Hnotin. rewrite <- Hid. now apply in_map.
Qed.

(** C6, as the code has it.  A row of either output that carries slide
    index [i] and shape id [k] was written for a shape of slide [i] with
    id [k] that is no connector; so, when shape ids are unique within
    each slide, no connector of slide [i] has id [k]. *)
Theorem connectors_skipped (E : list (string * Z)) (f : UploadedFile)
    (prs : Presentation) (out : buffer) (row : list pyval) (i k : Z)
    (headers : list string)
    (Hload : load f = Ok prs)
    (Hout : generate_text_details_tsv E f = Some out /\ headers = text_headers \/
            generate_combined_shape_details_tsv E f = Some out /\ headers = csv_headers)
    (Hrow : In row out)
    (Hslide : column headers "slide_index" row = Some (PyInt i))
    (Hid : column headers "shape_id" row = Some (PyInt k)) :
  (exists shape,
     on_slide prs i shape /\ shape_id shape = k /\ is_line E shape = false) /\
  (unique_ids prs ->
   forall connector,
     on_slide prs i connector -> is_line E connector = true ->
     shape_id connector <> k).
Proof.
  assert (Horigin : exists shape,
            In (i, shape) (visible_shapes E prs) /\ shape_id shape = k).
  { destruct Hout as [[Hout ->] | [Hout ->]].
    - rewrite (text_rows E f prs out Hload Hout) in Hrow.
      destruct Hrow as [<- | Hrow]; [discriminate|].
      apply text_data_rows_origin in Hrow.
      destruct Hrow as (j & shape & cp & p & r & t & Hvis & ->).
      destruct (text_row_columns j (shape_id shape) cp p r t) as [Hc1 Hc2].
      rewrite Hc1 in Hslide. rewrite Hc2 in Hid.
      injection Hslide as <-. injection Hid as <-. eauto.
    - rewrite (summary_rows E f prs out Hload Hout) in Hrow.
      destruct Hrow as [<- | Hrow]; [discriminate|].
      unfold summary_data_rows in Hrow. apply in_map_iff in Hrow.
      destruct Hrow as ([j shape] & <- & Hvis). cbn [fst snd] in *.
      destruct (summary_row_columns E j shape) as (Hc1 & Hc2 & _).
      rewrite Hc1 in Hslide. rewrite Hc2 in Hid.
      injection Hslide as <-. injection Hid as <-. eauto. }
  destruct Horigin as (shape & Hvis & Hk).
  apply visible_shapes_on_slide in Hvis. destruct Hvis as [Hon Hline].
  split; [eauto|].
  intros Huniq connector Hcon Hcline Heq.
  assert (connector = shape)
    by (apply (unique_id_on_slide prs i); [assumption .. | congruence]).
  congruence.
Qed.

Lemma connectors_skipped_witness :
  (exists shape,
     on_slide {| slides := [ {| shapes := [text_shape 2 9 (Some "Connector") ""] |};
                             {| shapes := [text_shape 2 17 (Some "Title") "x"] |} ] |}
              1 shape /\
     shape_id shape = 2 /\ is_line pptx_MSO_SHAPE_TYPE shape = false).
Proof.
  refine (proj1 (connectors_skipped pptx_MSO_SHAPE_TYPE reused_id_file _
            [ map PyStr text_headers;
              [ PyInt 1; PyInt 2; PyBool false; PyNone; PyNone; PyInt 0;
                PyInt 0; PyStr "x" ] ]
            [ PyInt 1; PyInt 2; PyBool false; PyNone; PyNone; PyInt 0;
              PyInt 0; PyStr "x" ]
            1 2 text_headers eq_refl _ _ eq_refl eq_refl)).
  - left. split; reflexivity.
  - right. left. reflexivity.
Defined.

(** C6, as stated, fails: the connector of the first slide has id 2, and
    both outputs have a row with shape id 2, written for the text box of
    the second slide.  Shape ids are unique within each slide. *)
Lemma connector_id_in_rows :
  exists prs connector,
    load reused_id_file = Ok prs /\
    unique_ids prs /\
    In connector (all_shapes prs) /\
    is_line pptx_MSO_SHAPE_TYPE connector = true /\
    (exists out row,
       generate_text_details_tsv pptx_MSO_SHAPE_TYPE reused_id_file = Some out /\
       In row out /\
       column text_headers "shape_id" row = Some (PyInt (shape_id connector))) /\
    (exists out row,
       generate_combined_shape_details_tsv pptx_MSO_SHAPE_TYPE reused_id_file
       = Some out /\
       In row out /\
       column csv_headers "shape_id" row = Some (PyInt (shape_id connector))).
Proof.
  eexists _, (text_shape 2 9 (Some "Connector") "").
  split; [reflexivity|]. split.
  { intros slide [<- | [<- | []]]; cbn; repeat constructor; intros []. }
  split; [left; reflexivity|]. split; [reflexivity|]. split.
  - eexists _, _. split; [reflexivity|].
    split; [right; left; reflexivity | reflexivity].
  - eexists _, _. split; [reflexivity|].
    split; [right; left; reflexivity | reflexivity].
Qed.

(** ** The columns of the shape summary *)

Lemma find_first {A} (p : A -> bool) (l : list A) (m : A) :
  find p l = Some m ->
  exists before after,
    l = (before ++ m :: after)%list /\ p m = true /\
    forall x, In x before -> p x = false.
Proof.
  induction l as [|a l IH]; cbn [find]; [discriminate|].
  destruct (p a) eqn:Hpa.
  - intros [= <-]. exists [], l. repeat split; [exact Hpa | intros x []].
  - intros Hfind. destruct (IH Hfind) as (before & after & -> & Hpm & Hbefore).
    exists (a :: before), after. repeat split; [exact Hpm|].
    intros x [<- | Hin]; auto.
Qed.

(** The name of the first member with the shape's kind as value, or
    "Unknown (kind)", the kind as Python prints it, when there is none. *)
Lemma shape_type_str_spec (E : list (string * Z)) (shape : Shape) :
  (forall k, shape_type shape = Some k -> (exists nm, In (nm, k) E) ->
   exists nm before after,
     E = (before ++ (nm, k) :: after)%list /\
     (forall m, In m before -> snd m <> k) /\
     shape_type_str E shape = nm) /\
  (forall k, shape_type shape = Some k -> (forall nm, ~ In (nm, k) E) ->
   shape_type_str E shape = "Unknown (" ++ str_of_int k ++ ")") /\
  (shape_type shape = None -> shape_type_str E shape = "Unknown (None)").
Proof.
  unfold shape_type_str. split; [|split].
  - intros k -> [nm0 Hin0]. cbn [kind_eq].
    destruct (find _ E) as [[nm v]|] eqn:Hfind.
    + destruct (find_first _ _ _ Hfind) as (before & after & -> & Hv & Hb).
      cbn [snd] in Hv. apply Z.eqb_eq in Hv. subst v.
      exists nm, before, after. repeat split.
      intros m Hin Heq. specialize (Hb m Hin). cbn in Hb.
      apply Z.eqb_neq in Hb. congruence.
    + exfalso. pose proof (find_none _ _ Hfind _ Hin0) as Hv. cbn [snd] in Hv.
      now rewrite Z.eqb_refl in Hv.
  - intros k -> Hnone. cbn [kind_eq str_of_kind].
    destruct (find _ E) as [[nm v]|] eqn:Hfind; [|reflexivity].
    exfalso. apply find_some in Hfind.
    destruct Hfind as [Hin Hv]. cbn [snd] in Hv. apply Z.eqb_eq in Hv.
    subst v. exact (Hnone nm Hin).
  - intros ->. cbn [kind_eq str_of_kind].
    replace (find (fun _ : string * Z => false) E) with (@None (string * Z));
      [reflexivity|].
    symmetry. induction E as [|m E' IH]; [reflexivity | exact IH].
Qed.

Lemma Forall2_map_right {A B} (R : A -> B -> Prop) (g : A -> B) (l : list A) :
  (forall x, In x l -> R x (g x)) -> Forall2 R l (map g l).
Proof.
  induction l as [|x l IH]; intros H; cbn [map]; constructor.
  - apply H. now left.
  - apply IH. intros y Hy. apply H. now right.
Qed.

(** C9, as the code has it.  The data rows of the shape summary are
    those of the shapes that are not skipped, in order; the shape_type
    column of a shape's row is the name of the first member of the
    enumeration whose value is the shape's kind, and "Unknown (kind)",
    the kind as Python prints it, when no member has that value: so
    "Unknown (99)" for kind 99 when 99 is no member's value, and
    "Unknown (None)" for the kind [None]. *)
Theorem shape_type_column (E : list (string * Z)) (f : UploadedFile)
    (prs : Presentation) (out : buffer)
    (Hload : load f = Ok prs)
    (Hout : generate_combined_shape_details_tsv E f = Some out) :
  exists data,
    out = map PyStr csv_headers :: data /\
    Forall2 (fun (ish : Z * Shape) (row : list pyval) =>
      let kind := shape_type (snd ish) in
      column csv_headers "slide_index" row = Some (PyInt (fst ish)) /\
      column csv_headers "shape_id" row = Some (PyInt (shape_id (snd ish))) /\
      (forall k, kind = Some k -> (exists nm, In (nm, k) E) ->
       exists nm before after,
         E = (before ++ (nm, k) :: after)%list /\
         (forall m, In m before -> snd m <> k) /\
         column csv_headers "shape_type" row = Some (PyStr nm)) /\
      (forall k, kind = Some k -> (forall nm, ~ In (nm, k) E) ->
       column csv_headers "shape_type" row
       = Some (PyStr ("Unknown (" ++ str_of_int k ++ ")"))) /\
      (kind = Some 99 -> (forall nm, ~ In (nm, 99) E) ->
       column csv_headers "shape_type" row = Some (PyStr "Unknown (99)")) /\
      (kind = None ->
       column csv_headers "shape_type" row = Some (PyStr "Unknown (None)")))
      (visible_shapes E prs) data.
Proof.
  exists (summary_data_rows E prs).
  split; [exact (summary_rows E f prs out Hload Hout)|].
  unfold summary_data_rows. apply Forall2_map_right.
  intros [i shape] _. cbv zeta. cbn [fst snd].
  destruct (summary_row_columns E i shape) as (Hc1 & Hc2 & _ & Hc4).
  destruct (shape_type_str_spec E shape) as (Hmember & Hunknown & Hnone).
  split; [exact Hc1|]. split; [exact Hc2|]. rewrite Hc4.
  split; [|split; [|split]].
  - intros k Hk Hex.
    destruct (Hmember k Hk Hex) as (nm & before & after & HE & Hb & ->).
    exists nm, before, after. auto.
  - intros k Hk Hno. now rewrite (Hunknown k Hk Hno).
  - intros H99 Hno. now rewrite (Hunknown 99 H99 Hno).
  - intros Hk. now rewrite (Hnone Hk).
Qed.

Lemma shape_type_column_witness :
  generate_combined_shape_details_tsv pptx_MSO_SHAPE_TYPE odd_shapes_file
  = Some [ map PyStr csv_headers;
           [ PyInt 0; PyInt 2; PyStr "Unnamed Shape"; PyStr "TEXT_BOX";
             PyStr "Fill Attribute Missing / Other Type";
             PyInt 0; PyInt 0; PyInt 914400; PyInt 914400; PyStr "x" ];
           [ PyInt 0; PyInt 3; PyStr "Shape"; PyStr "Unknown (99)";
             PyStr "Fill Attribute Missing / Other Type";
             PyStr "N/A"; PyStr "N/A"; PyStr "N/A"; PyStr "N/A"; PyStr "" ] ] /\
  exists data,
    [ map PyStr csv_headers;
      [ PyInt 0; PyInt 2; PyStr "Unnamed Shape"; PyStr "TEXT_BOX";
        PyStr "Fill Attribute Missing / Other Type";
        PyInt 0; PyInt 0; PyInt 914400; PyInt 914400; PyStr "x" ];
      [ PyInt 0; PyInt 3; PyStr "Shape"; PyStr "Unknown (99)";
        PyStr "Fill Attribute Missing / Other Type";
        PyStr "N/A"; PyStr "N/A"; PyStr "N/A"; PyStr "N/A"; PyStr "" ] ]
    = map PyStr csv_headers :: data /\
    List.length data = 2%nat.
Proof.
  split; [reflexivity|].
  destruct (shape_type_column pptx_MSO_SHAPE_TYPE odd_shapes_file _ _
              eq_refl eq_refl) as (data & Hdata & Hrows).
  exists data. split; [exact Hdata|].
  apply Forall2_length in Hrows. now rewrite <- Hrows.
Defined.

Lemma str_of_int_not_None (z : Z) : str_of_int z <> "None".
Proof.
  unfold str_of_int.
  destruct (Z.to_int z) as [u|u]; destruct u; cbn; discriminate.
Qed.

(** C9, as stated, fails: a frame whose kind is [None] matches no member
    of the enumeration, and its shape_type is "Unknown (None)", which is
    "Unknown (" and ")" around no number. *)
Lemma unknown_kind_without_number :
  generate_combined_shape_details_tsv pptx_MSO_SHAPE_TYPE smartart_file
  = Some [ map PyStr csv_headers;
           [ PyInt 0; PyInt 2; PyStr "Title"; PyStr "TEXT_BOX";
             PyStr "Fill Attribute Missing / Other Type";
             PyInt 0; PyInt 0; PyInt 914400; PyInt 914400; PyStr "x" ];
           [ PyInt 0; PyInt 5; PyStr "Diagram"; PyStr "Unknown (None)";
             PyStr "Fill Attribute Missing / Other Type";
             PyInt 0; PyInt 0; PyInt 914400; PyInt 914400; PyStr "" ] ] /\
  shape_type smartart_shape = None /\
  forall z, "Unknown (" ++ str_of_int z ++ ")" <> "Unknown (None)".
Proof.
  split; [reflexivity|]. split; [reflexivity|].
  intros z H. cbn in H. injection H as H.
  apply (str_of_int_not_None z).
  revert H. generalize (str_of_int z). intros s.
  destruct s as [|a [|b [|c [|d [|e' s]]]]]; cbn; try discriminate.
  - intros [= -> -> -> ->]. reflexivity.
  - intros [= _ _ _ _ _ H]. destruct s; discriminate.
Qed.

Lemma name_or_default_nonempty (n : option string) : name_or_default n <> "".
Proof.
  destruct n as [[|c s]|]; cbn; discriminate.
Qed.

(** C10.  A shape whose name is the empty string gets "Unnamed Shape" in
    the shape_name column, and no row of the shape summary has an empty
    shape_name. *)
Theorem shape_name_column (E : list (string * Z)) (f : UploadedFile)
    (prs : Presentation) (out : buffer)
    (Hload : load f = Ok prs)
    (Hout : generate_combined_shape_details_tsv E f = Some out) :
  (exists data,
     out = map PyStr csv_headers :: data /\
     Forall2 (fun (ish : Z * Shape) (row : list pyval) =>
                column csv_headers "shape_id" row
                = Some (PyInt (shape_id (snd ish))) /\
                (name (snd ish) = Some "" ->
                 column csv_headers "shape_name" row
                 = Some (PyStr "Unnamed Shape")))
             (visible_shapes E prs) data) /\
  (forall row, In row out ->
     column csv_headers "shape_name" row <> Some (PyStr "")).
Proof.
  pose proof (summary_rows E f prs out Hload Hout) as ->.
  split.
  - eexists. split; [reflexivity|].
    unfold summary_data_rows. apply Forall2_map_right.
    intros [i shape] _. cbn [fst snd].
    destruct (summary_row_columns E i shape) as (_ & Hc2 & Hc3 & _).
    split; [exact Hc2|]. intros Hname. now rewrite Hc3, Hname.
  - intros row [<- | Hrow]; [discriminate|].
    unfold summary_data_rows in Hrow. apply in_map_iff in Hrow.
    destruct Hrow as ([i shape] & <- & _). cbn [fst snd].
    destruct (summary_row_columns E i shape) as (_ & _ & Hc3 & _).
    rewrite Hc3. intros [= Hempty].
    exact (name_or_default_nonempty _ Hempty).
Qed.

Lemma shape_name_column_witness :
  generate_combined_shape_details_tsv pptx_MSO_SHAPE_TYPE odd_shapes_file
  = Some [ map PyStr csv_headers;
           [ PyInt 0; PyInt 2; PyStr "Unnamed Shape"; PyStr "TEXT_BOX";
             PyStr "Fill Attribute Missing / Other Type";
             PyInt 0; PyInt 0; PyInt 914400; PyInt 914400; PyStr "x" ];
           [ PyInt 0; PyInt 3; PyStr "Shape"; PyStr "Unknown (99)";
             PyStr "Fill Attribute Missing / Other Type";
             PyStr "N/A"; PyStr "N/A"; PyStr "N/A"; PyStr "N/A"; PyStr "" ] ] /\
  forall row,
    In row [ map PyStr csv_headers;
             [ PyInt 0; PyInt 2; PyStr "Unnamed Shape"; PyStr "TEXT_BOX";
               PyStr "Fill Attribute Missing / Other Type";
               PyInt 0; PyInt 0; PyInt 914400; PyInt 914400; PyStr "x" ];
             [ PyInt 0; PyInt 3; PyStr "Shape"; PyStr "Unknown (99)";
               PyStr "Fill Attribute Missing / Other Type";
               PyStr "N/A"; PyStr "N/A"; PyStr "N/A"; PyStr "N/A"; PyStr "" ] ] ->
    column csv_headers "shape_name" row <> Some (PyStr "").
Proof.
  split; [reflexivity|].
  exact (proj2 (shape_name_column pptx_MSO_SHAPE_TYPE odd_shapes_file _ _
                  eq_refl eq_refl)).
Defined.

Lemma concatenator_properties_witness :
  get_all_text_from_shape pptx_MSO_SHAPE_TYPE
    (text_shape 2 17 (Some "Title") "  Hello | ") = Ok "Hello |" /\
  startswith "Hello |" " | " = false /\ endswith "Hello |" " | " = false /\
  get_all_text_from_shape pptx_MSO_SHAPE_TYPE (bare_shape 5 13) = Ok "" /\
  forall out,
    get_all_text_from_shape pptx_MSO_SHAPE_TYPE
      (text_shape 2 17 (Some "Title") "   ") = Ok out -> out = "".
Proof.
  split; [reflexivity|].
  pose proof (concatenator_properties pptx_MSO_SHAPE_TYPE
                (text_shape 2 17 (Some "Title") "  Hello | ")) as (_ & H2 & _).
  pose proof (concatenator_properties pptx_MSO_SHAPE_TYPE (bare_shape 5 13))
    as (_ & _ & H3 & _).
  pose proof (concatenator_properties pptx_MSO_SHAPE_TYPE
                (text_shape 2 17 (Some "Title") "   ")) as (_ & _ & _ & H4).
  split; [exact (proj1 (H2 "Hello |" eq_refl (le_n 1)))|].
  split; [exact (proj2 (H2 "Hello |" eq_refl (le_n 1)))|].
  split; [exact (H3 eq_refl eq_refl)|].
  intros out Hout. apply (H4 out Hout).
  intros t [<- | []]. reflexivity.
Defined.

(* ================================================================== *)
(** * Every row of Stream A points at its run, and every run has its row *)

Lemma in_enumerate_from_iff {A} (l : list A) (i j : Z) (x : A) :
  In (j, x) (enumerate_from i l) <->
  i <= j /\ nth_error l (Z.to_nat (j - i)) = Some x.
Proof.
  split; [apply in_enumerate_from|].
  revert i. induction l as [|a l IH]; intros i [Hle Hnth].
  - destruct (Z.to_nat (j - i)); discriminate.
  - cbn [enumerate_from In].
    destruct (Z.eq_dec j i) as [-> | Hne].
    + rewrite Z.sub_diag in Hnth. injection Hnth as <-. now left.
    + right. apply IH. split; [lia|].
      replace (Z.to_nat (j - i)) with (Datatypes.S (Z.to_nat (j - (i + 1))))
        in Hnth by lia.
      exact Hnth.
Qed.

Lemma in_enumerate {A} (l : list A) (j : Z) (x : A) :
  In (j, x) (enumerate l) <-> 0 <= j /\ nth_error l (Z.to_nat j) = Some x.
Proof.
  unfold enumerate. rewrite in_enumerate_from_iff. now rewrite Z.sub_0_r.
Qed.

Lemma frame_rows_iff (i sid : Z) (cellpos : option (Z * Z)) (tf : TextFrame)
    (row : list pyval) :
  In row (frame_rows i sid cellpos tf) <->
  exists p r run,
    run_at tf p r run /\ nonempty_run run = true /\
    row = text_row i sid cellpos p r (strip (run_text run)).
Proof.
  unfold frame_rows, run_at. rewrite in_flat_map. split.
  - intros ([p para] & Hp & Hin). apply in_flat_map in Hin.
    destruct Hin as ([r run] & Hr & Hin). cbn [fst snd] in *.
    apply in_enumerate in Hp. apply in_enumerate in Hr.
    destruct (nonempty_run run) eqn:Hne; [|contradiction].
    destruct Hin as [<- | []].
    exists p, r, run. intuition eauto.
  - intros (p & r & run & (Hp & Hr & para & Hpara & Hrun) & Hne & ->).
    exists (p, para). split; [apply in_enumerate; auto|].
    apply in_flat_map. exists (r, run). split; [apply in_enumerate; auto|].
    cbn [fst snd]. rewrite Hne. now left.
Qed.

Lemma table_rows_iff (i sid : Z) (tbl : Table) (row : list pyval) :
  In row (table_rows i sid tbl) <->
  exists r_idx c_idx cell p r run,
    cell_at tbl r_idx c_idx cell /\
    run_at (cell_text_frame cell) p r run /\ nonempty_run run = true /\
    row = text_row i sid (Some (r_idx, c_idx)) p r (strip (run_text run)).
Proof.
  unfold table_rows, cell_at. rewrite in_flat_map. split.
  - intros ([ri trow] & Hri & Hin). apply in_flat_map in Hin.
    destruct Hin as ([ci cell] & Hci & Hin). cbn [fst snd] in *.
    apply in_enumerate in Hri. apply in_enumerate in Hci.
    apply frame_rows_iff in Hin. destruct Hin as (p & r & run & Hat & Hne & ->).
    exists ri, ci, cell, p, r, run. intuition eauto.
  - intros (ri & ci & cell & p & r & run
            & (Hri & Hci & trow & Htrow & Hcell) & Hat & Hne & ->).
    exists (ri, trow). split; [apply in_enumerate; auto|].
    apply in_flat_map. exists (ci, cell). split; [apply in_enumerate; auto|].
    cbn [fst snd]. apply frame_rows_iff. exists p, r, run. auto.
Qed.

Lemma on_slide_iff (prs : Presentation) (i : Z) (shape : Shape) :
  on_slide prs i shape <->
  exists slide, In (i, slide) (enumerate (slides prs)) /\ In shape (shapes slide).
Proof.
  unfold on_slide. split.
  - intros (slide & Hi & Hnth & Hin). exists slide.
    split; [apply in_enumerate; auto | exact Hin].
  - intros (slide & Hi & Hin). apply in_enumerate in Hi.
    exists slide. tauto.
Qed.

(** The data rows of Stream A, one by one. *)
Lemma text_data_rows_iff (E : list (string * Z)) (prs : Presentation)
    (row : list pyval) :
  In row (text_data_rows E prs) <->
  exists i shape,
    on_slide prs i shape /\ is_line E shape = false /\
    ((exists tf p r run,
        text_frame shape = Some tf /\ run_at tf p r run /\
        nonempty_run run = true /\
        row = text_row i (shape_id shape) None p r (strip (run_text run))) \/
     (exists tbl r_idx c_idx cell p r run,
        is_table E shape = true /\ table shape = Some tbl /\
        cell_at tbl r_idx c_idx cell /\
        run_at (cell_text_frame cell) p r run /\ nonempty_run run = true /\
        row = text_row i (shape_id shape) (Some (r_idx, c_idx)) p r
                       (strip (run_text run)))).
Proof.
  unfold text_data_rows. rewrite in_flat_map. split.
  - intros ([i slide] & Hslide & Hin). apply in_flat_map in Hin.
    destruct Hin as (shape & Hshape & Hin). cbn [fst snd] in *.
    unfold shape_text_rows in Hin.
    destruct (is_line E shape) eqn:Hline; [contradiction|].
    exists i, shape. split; [apply on_slide_iff; eauto|].
    split; [exact Hline|].
    apply in_app_or in Hin. destruct Hin as [Hin | Hin].
    + left. destruct (text_frame shape) as [tf|]; [|contradiction].
      apply frame_rows_iff in Hin. destruct Hin as (p & r & run & H).
      exists tf, p, r, run. tauto.
    + right. destruct (is_table E shape); [|contradiction].
      destruct (table shape) as [tbl|]; [|contradiction].
      apply table_rows_iff in Hin.
      destruct Hin as (ri & ci & cell & p & r & run & H).
      exists tbl, ri, ci, cell, p, r, run. tauto.
  - intros (i & shape & Hon & Hline & Hrow).
    apply on_slide_iff in Hon. destruct Hon as (slide & Hslide & Hshape).
    exists (i, slide). split; [exact Hslide|].
    apply in_flat_map. exists shape. split; [exact Hshape|].
    cbn [fst snd]. unfold shape_text_rows. rewrite Hline. apply in_or_app.
    destruct Hrow as [(tf & p & r & run & -> & H)
                     | (tbl & ri & ci & cell & p & r & run & -> & -> & H)].
    + left. apply frame_rows_iff. exists p, r, run. exact H.
    + right. apply table_rows_iff. exists ri, ci, cell, p, r, run. exact H.
Qed.

Lemma truthy_iff (s : string) : truthy s = true <-> s <> "".
Proof. destruct s; cbn; split; congruence. Qed.

(** X4.  A row of Stream A whose is_table_cell is false was written for
    a run of a text frame: its slide index, shape id, paragraph index
    and run index locate a run of a shape that is not a connector, and
    its text is that run's trimmed text, which is not empty; its two
    cell columns are [None]. *)
Theorem frame_row_provenance (E : list (string * Z)) (f : UploadedFile)
    (prs : Presentation) (out : buffer) (row : list pyval)
    (Hload : load f = Ok prs)
    (Hout : generate_text_details_tsv E f = Some out)
    (Hrow : In row out)
    (Hflag : column text_headers "is_table_cell" row = Some (PyBool false)) :
  exists i shape tf p r run,
    on_slide prs i shape /\ is_line E shape = false /\
    text_frame shape = Some tf /\ run_at tf p r run /\
    strip (run_text run) <> "" /\
    row = [ PyInt i; PyInt (shape_id shape); PyBool false; PyNone; PyNone;
            PyInt p; PyInt r; PyStr (strip (run_text run)) ].
Proof.
  rewrite (text_rows E f prs out Hload Hout) in Hrow.
  destruct Hrow as [<- | Hrow]; [discriminate|].
  apply text_data_rows_iff in Hrow.
  destruct Hrow as (i & shape & Hon & Hline
                    & [(tf & p & r & run & Htf & Hat & Hne & ->)
                      | (tbl & ri & ci & cell & p & r & run & _ & _ & _ & _ & _ & ->)]);
    [|discriminate].
  exists i, shape, tf, p, r, run.
  apply truthy_iff in Hne. auto 10.
Qed.

Lemma frame_row_provenance_witness :
  generate_text_details_tsv pptx_MSO_SHAPE_TYPE mixed_file
  = Some [ map PyStr text_headers;
           text_row 0 2 None 0 0 "Hello";
           text_row 0 4 (Some (0, 0)) 0 0 "A";
           text_row 0 4 (Some (1, 1)) 0 0 "B";
           text_row 1 9 None 0 0 "Head";
           text_row 1 9 (Some (0, 0)) 0 0 "A";
           text_row 1 9 (Some (1, 1)) 0 0 "B" ] /\
  exists i shape tf p r run,
    on_slide mixed_presentation i shape /\
    is_line pptx_MSO_SHAPE_TYPE shape = false /\
    text_frame shape = Some tf /\ run_at tf p r run /\
    strip (run_text run) <> "" /\
    text_row 1 9 None 0 0 "Head"
    = [ PyInt i; PyInt (shape_id shape); PyBool false; PyNone; PyNone;
        PyInt p; PyInt r; PyStr (strip (run_text run)) ].
Proof.
  split; [reflexivity|].
  refine (frame_row_provenance pptx_MSO_SHAPE_TYPE mixed_file
            mixed_presentation _ (text_row 1 9 None 0 0 "Head")
            eq_refl eq_refl _ eq_refl).
  do 4 right. left. reflexivity.
Defined.

(** X5.  A row of Stream A whose is_table_cell is true was written for a
    run of a table cell: its indices locate a run in a cell of the table
    of a shape that is not a connector and has the kind of a table, and
    its text is that run's trimmed text, which is not empty. *)
Theorem cell_row_provenance (E : list (string * Z)) (f : UploadedFile)
    (prs : Presentation) (out : buffer) (row : list pyval)
    (Hload : load f = Ok prs)
    (Hout : generate_text_details_tsv E f = Some out)
    (Hrow : In row out)
    (Hflag : column text_headers "is_table_cell" row = Some (PyBool true)) :
  exists i shape tbl r_idx c_idx cell p r run,
    on_slide prs i shape /\ is_line E shape = false /\
    is_table E shape = true /\ table shape = Some tbl /\
    cell_at tbl r_idx c_idx cell /\
    run_at (cell_text_frame cell) p r run /\
    strip (run_text run) <> "" /\
    row = [ PyInt i; PyInt (shape_id shape); PyBool true; PyInt r_idx;
            PyInt c_idx; PyInt p; PyInt r; PyStr (strip (run_text run)) ].
Proof.
  rewrite (text_rows E f prs out Hload Hout) in Hrow.
  destruct Hrow as [<- | Hrow]; [discriminate|].
  apply text_data_rows_iff in Hrow.
  destruct Hrow as (i & shape & Hon & Hline
                    & [(tf & p & r & run & _ & _ & _ & ->)
                      | (tbl & ri & ci & cell & p & r & run
                         & Htable & Htbl & Hcell & Hat & Hne & ->)]);
    [discriminate|].
  exists i, shape, tbl, ri, ci, cell, p, r, run.
  apply truthy_iff in Hne. auto 12.
Qed.

Lemma cell_row_provenance_witness :
  generate_text_details_tsv pptx_MSO_SHAPE_TYPE mixed_file
  = Some [ map PyStr text_headers;
           text_row 0 2 None 0 0 "Hello";
           text_row 0 4 (Some (0, 0)) 0 0 "A";
           text_row 0 4 (Some (1, 1)) 0 0 "B";
           text_row 1 9 None 0 0 "Head";
           text_row 1 9 (Some (0, 0)) 0 0 "A";
           text_row 1 9 (Some (1, 1)) 0 0 "B" ] /\
  exists i shape tbl r_idx c_idx cell p r run,
    on_slide mixed_presentation i shape /\
    is_line pptx_MSO_SHAPE_TYPE shape = false /\
    is_table pptx_MSO_SHAPE_TYPE shape = true /\ table shape = Some tbl /\
    cell_at tbl r_idx c_idx cell /\
    run_at (cell_text_frame cell) p r run /\
    strip (run_text run) <> "" /\
    text_row 1 9 (Some (1, 1)) 0 0 "B"
    = [ PyInt i; PyInt (shape_id shape); PyBool true; PyInt r_idx;
        PyInt c_idx; PyInt p; PyInt r; PyStr (strip (run_text run)) ].
Proof.
  split; [reflexivity|].
  refine (cell_row_provenance pptx_MSO_SHAPE_TYPE mixed_file
            mixed_presentation _ (text_row 1 9 (Some (1, 1)) 0 0 "B")
            eq_refl eq_refl _ eq_refl).
  do 6 right. left. reflexivity.
Defined.

(** X6.  No run is lost: when the text-run pass returns rows, every run
    with non-empty trimmed text in the text frame of a shape that is not
    a connector has its row, and so has every such run in a cell of the
    table of such a shape whose kind is table. *)
Theorem every_run_has_a_row (E : list (string * Z)) (f : UploadedFile)
    (prs : Presentation) (out : buffer)
    (Hload : load f = Ok prs)
    (Hout : generate_text_details_tsv E f = Some out) :
  (forall i shape tf p r run,
     on_slide prs i shape -> is_line E shape = false ->
     text_frame shape = Some tf -> run_at tf p r run ->
     strip (run_text run) <> "" ->
     In [ PyInt i; PyInt (shape_id shape); PyBool false; PyNone; PyNone;
          PyInt p; PyInt r; PyStr (strip (run_text run)) ] out) /\
  (forall i shape tbl r_idx c_idx cell p r run,
     on_slide prs i shape -> is_line E shape = false ->
     is_table E shape = true -> table shape = Some tbl ->
     cell_at tbl r_idx c_idx cell ->
     run_at (cell_text_frame cell) p r run ->
     strip (run_text run) <> "" ->
     In [ PyInt i; PyInt (shape_id shape); PyBool true; PyInt r_idx;
          PyInt c_idx; PyInt p; PyInt r; PyStr (strip (run_text run)) ] out).
Proof.
  rewrite (text_rows E f prs out Hload Hout). split.
  - intros i shape tf p r run Hon Hline Htf Hat Hne. right.
    apply text_data_rows_iff. exists i, shape.
    split; [exact Hon|]. split; [exact Hline|]. left.
    exists tf, p, r, run. apply truthy_iff in Hne. auto.
  - intros i shape tbl ri ci cell p r run Hon Hline Htable Htbl Hcell Hat Hne.
    right. apply text_data_rows_iff. exists i, shape.
    split; [exact Hon|]. split; [exact Hline|]. right.
    exists tbl, ri, ci, cell, p, r, run. apply truthy_iff in Hne. auto 8.
Qed.

Lemma every_run_has_a_row_witness :
  generate_text_details_tsv pptx_MSO_SHAPE_TYPE mixed_file
  = Some [ map PyStr text_headers;
           text_row 0 2 None 0 0 "Hello";
           text_row 0 4 (Some (0, 0)) 0 0 "A";
           text_row 0 4 (Some (1, 1)) 0 0 "B";
           text_row 1 9 None 0 0 "Head";
           text_row 1 9 (Some (0, 0)) 0 0 "A";
           text_row 1 9 (Some (1, 1)) 0 0 "B" ] /\
  In (text_row 1 9 (Some (1, 1)) 0 0 "B")
     [ map PyStr text_headers;
       text_row 0 2 None 0 0 "Hello";
       text_row 0 4 (Some (0, 0)) 0 0 "A";
       text_row 0 4 (Some (1, 1)) 0 0 "B";
       text_row 1 9 None 0 0 "Head";
       text_row 1 9 (Some (0, 0)) 0 0 "A";
       text_row 1 9 (Some (1, 1)) 0 0 "B" ].
Proof.
  split; [reflexivity|].
  refine (proj2 (every_run_has_a_row pptx_MSO_SHAPE_TYPE mixed_file
                   mixed_presentation _ eq_refl eq_refl)
            1 framed_table_shape table_2x2 1 1 (cell_with "B") 0 0
            {| run_text := "B" |} _ eq_refl eq_refl eq_refl _ _ _).
  - exists {| shapes := [ text_shape 2 1 None "   "; framed_table_shape ] |}.
    split; [lia|]. split; [reflexivity | right; left; reflexivity].
  - split; [lia|]. split; [lia|]. eexists. split; reflexivity.
  - split; [lia|]. split; [lia|]. eexists. split; reflexivity.
  - discriminate.
Defined.

(** ** Trimmed texts *)

Lemma lstrip_fixed (x : string) :
  (forall c r, x = String c r -> isspace c = false) -> lstrip x = x.
Proof.
  destruct x as [|c r]; [reflexivity|].
  intros H. cbn. now rewrite (H c r eq_refl).
Qed.

Lemma rstrip_idempotent (x : string) : rstrip (rstrip x) = rstrip x.
Proof.
  induction x as [|c s IH]; [reflexivity|].
  cbn [rstrip]. destruct (rstrip s) as [|b t] eqn:Hr.
  - destruct (isspace c) eqn:Hc; [reflexivity|].
    cbn [rstrip]. now rewrite Hc.
  - change (rstrip (String c (String b t)))
      with (match rstrip (String b t) with
            | EmptyString => if isspace c then EmptyString else String c EmptyString
            | r => String c r
            end).
    now rewrite IH.
Qed.

Lemma strip_idempotent (s : string) : strip (strip s) = strip s.
Proof.
  unfold strip at 1.
  rewrite (lstrip_fixed (strip s)) by (intros c r; apply strip_head).
  unfold strip. apply rstrip_idempotent.
Qed.

(** X7.  The text of every data row of Stream A is not empty and has no
    white space at either end: trimming it again changes nothing. *)
Theorem text_column_trimmed (E : list (string * Z)) (f : UploadedFile)
    (out : buffer) (row : list pyval)
    (Hout : generate_text_details_tsv E f = Some out)
    (Hrow : In row (tl out)) :
  exists text,
    column text_headers "text" row = Some (PyStr text) /\
    text <> "" /\ strip text = text.
Proof.
  rewrite text_pass_spec in Hout.
  destruct (load f) as [prs|e]; [|discriminate].
  destruct (walkable_presentation E prs); [|discriminate].
  injection Hout as <-. cbn [tl] in Hrow.
  apply text_data_rows_iff in Hrow.
  destruct Hrow as (i & shape & _ & _
                    & [(tf & p & r & run & _ & _ & Hne & ->)
                      | (tbl & ri & ci & cell & p & r & run & _ & _ & _ & _ & Hne & ->)]);
    exists (strip (run_text run)); apply truthy_iff in Hne;
    (split; [reflexivity | split; [exact Hne | apply strip_idempotent]]).
Qed.

Lemma text_column_trimmed_witness :
  generate_text_details_tsv pptx_MSO_SHAPE_TYPE mixed_file
  = Some [ map PyStr text_headers;
           text_row 0 2 None 0 0 "Hello";
           text_row 0 4 (Some (0, 0)) 0 0 "A";
           text_row 0 4 (Some (1, 1)) 0 0 "B";
           text_row 1 9 None 0 0 "Head";
           text_row 1 9 (Some (0, 0)) 0 0 "A";
           text_row 1 9 (Some (1, 1)) 0 0 "B" ] /\
  exists text,
    column text_headers "text" (text_row 1 9 None 0 0 "Head")
    = Some (PyStr text) /\
    text <> "" /\ strip text = text.
Proof.
  split; [reflexivity|].
  refine (text_column_trimmed pptx_MSO_SHAPE_TYPE mixed_file _
            (text_row 1 9 None 0 0 "Head") eq_refl _).
  do 3 right. left. reflexivity.
Defined.

(* ================================================================== *)
(** * Order of the rows, and the two streams side by side *)

Lemma StronglySorted_app {A} (R : A -> A -> Prop) (l1 l2 : list A) :
  StronglySorted R l1 -> StronglySorted R l2 ->
  (forall x y, In x l1 -> In y l2 -> R x y) ->
  StronglySorted R (l1 ++ l2).
Proof.
  induction l1 as [|a l1 IH]; intros H1 H2 H12; cbn; [exact H2|].
  inversion H1 as [|? ? Hs Hall]; subst. constructor.
  - apply IH; auto. intros x y Hx Hy. apply H12; [now right | exact Hy].
  - apply Forall_app. split; [exact Hall|].
    apply Forall_forall. intros y Hy. apply H12; [now left | exact Hy].
Qed.

Lemma StronglySorted_constant (k : Z) (l : list Z) :
  (forall x, In x l -> x = k) -> StronglySorted Z.le l.
Proof.
  induction l as [|a l IH]; intros H; constructor.
  - apply IH. intros x Hx. apply H. now right.
  - apply Forall_forall. intros y Hy.
    rewrite (H a (or_introl eq_refl)), (H y (or_intror Hy)). lia.
Qed.

(** Rows written slide by slide, each carrying the index of its slide,
    are in the order of the slides. *)
Lemma slide_blocks_sorted {X} (key : X -> Z) (g : Z * Slide -> list X)
    (l : list Slide) (i : Z) :
  (forall isl x, In x (g isl) -> key x = fst isl) ->
  StronglySorted Z.le (map key (flat_map g (enumerate_from i l))) /\
  Forall (fun k => i <= k < i + Z.of_nat (List.length l))
         (map key (flat_map g (enumerate_from i l))).
Proof.
  intros Hkey. revert i. induction l as [|a l IH]; intros i;
    cbn [enumerate_from flat_map map]; [split; constructor|].
  destruct (IH (i + 1)) as [Hsorted Hrange].
  assert (Hblock : forall k, In k (map key (g (i, a))) -> k = i).
  { intros k Hk. apply in_map_iff in Hk. destruct Hk as (x & <- & Hx).
    exact (Hkey (i, a) x Hx). }
  rewrite map_app. split.
  - apply StronglySorted_app;
      [exact (StronglySorted_constant i _ Hblock) | exact Hsorted |].
    intros x y Hx Hy. rewrite (Hblock x Hx).
    rewrite Forall_forall in Hrange. specialize (Hrange y Hy). lia.
  - apply Forall_app. split; apply Forall_forall; intros k Hk.
    + rewrite (Hblock k Hk). cbn [List.length]. lia.
    + rewrite Forall_forall in Hrange. specialize (Hrange k Hk).
      cbn [List.length]. lia.
Qed.

Lemma map_flat_map {A B C} (h : B -> C) (g : A -> list B) (l : list A) :
  map h (flat_map g l) = flat_map (fun x => map h (g x)) l.
Proof.
  induction l as [|a l IH]; cbn; [reflexivity|].
  now rewrite map_app, IH.
Qed.

Lemma shape_text_rows_slide_index (E : list (string * Z)) (i : Z)
    (shape : Shape) (row : list pyval) :
  In row (shape_text_rows E i shape) -> slide_index_of row = i.
Proof.
  unfold shape_text_rows.
  destruct (is_line E shape); [contradiction|].
  intros Hin. apply in_app_or in Hin. destruct Hin as [Hin | Hin].
  - destruct (text_frame shape) as [tf|]; [|contradiction].
    apply frame_rows_origin in Hin. destruct Hin as (p & r & t & ->).
    reflexivity.
  - destruct (is_table E shape); [|contradiction].
    destruct (table shape) as [tbl|]; [|contradiction].
    apply table_rows_origin in Hin.
    destruct Hin as ([[ri ci]|] & p & r & t & ->); reflexivity.
Qed.

Lemma data_rows_slide_index (E : list (string * Z)) (prs : Presentation) :
  (forall row, In row (text_data_rows E prs) ->
     column text_headers "slide_index" row = Some (PyInt (slide_index_of row))) /\
  (forall row, In row (summary_data_rows E prs) ->
     column csv_headers "slide_index" row = Some (PyInt (slide_index_of row))).
Proof.
  split; intros row Hrow.
  - apply text_data_rows_origin in Hrow.
    destruct Hrow as (i & shape & [[ri ci]|] & p & r & t & _ & ->); reflexivity.
  - unfold summary_data_rows in Hrow. apply in_map_iff in Hrow.
    destruct Hrow as ([i shape] & <- & _). reflexivity.
Qed.

(** X8.  In both outputs the data rows come slide by slide: their slide
    indices never decrease from one row to the next, and each is the
    position of a slide of the document. *)
Theorem rows_in_slide_order (E : list (string * Z)) (f : UploadedFile)
    (prs : Presentation) (out : buffer) (headers : list string)
    (Hload : load f = Ok prs)
    (Hout : generate_text_details_tsv E f = Some out /\ headers = text_headers \/
            generate_combined_shape_details_tsv E f = Some out /\ headers = csv_headers) :
  exists indices,
    Forall2 (fun row i => column headers "slide_index" row = Some (PyInt i))
            (tl out) indices /\
    StronglySorted Z.le indices /\
    Forall (fun i => 0 <= i < Z.of_nat (List.length (slides prs))) indices.
Proof.
  exists (map slide_index_of (tl out)).
  destruct (data_rows_slide_index E prs) as [Htext Hsummary].
  destruct Hout as [[Hout ->] | [Hout ->]].
  - rewrite (text_rows E f prs out Hload Hout). cbn [tl].
    split; [apply Forall2_map_right; exact Htext|].
    unfold text_data_rows, enumerate.
    apply (slide_blocks_sorted slide_index_of
             (fun isl => flat_map (shape_text_rows E (fst isl)) (shapes (snd isl)))).
    intros [i slide] row Hrow. cbn [fst snd] in *.
    apply in_flat_map in Hrow. destruct Hrow as (shape & _ & Hrow).
    exact (shape_text_rows_slide_index E i shape row Hrow).
  - rewrite (summary_rows E f prs out Hload Hout). cbn [tl].
    split; [apply Forall2_map_right; exact Hsummary|].
    unfold summary_data_rows, visible_shapes, enumerate.
    rewrite map_flat_map.
    apply (slide_blocks_sorted slide_index_of).
    intros [i slide] row Hrow. cbn [fst snd] in *.
    apply in_map_iff in Hrow. destruct Hrow as ([j shape] & <- & Hin).
    apply in_map_iff in Hin. destruct Hin as (s & [= <- <-] & _).
    reflexivity.
Qed.

Lemma rows_in_slide_order_witness :
  generate_text_details_tsv pptx_MSO_SHAPE_TYPE mixed_file
  = Some [ map PyStr text_headers;
           text_row 0 2 None 0 0 "Hello";
           text_row 0 4 (Some (0, 0)) 0 0 "A";
           text_row 0 4 (Some (1, 1)) 0 0 "B";
           text_row 1 9 None 0 0 "Head";
           text_row 1 9 (Some (0, 0)) 0 0 "A";
           text_row 1 9 (Some (1, 1)) 0 0 "B" ] /\
  exists indices,
    Forall2 (fun row i => column text_headers "slide_index" row = Some (PyInt i))
            [ text_row 0 2 None 0 0 "Hello";
              text_row 0 4 (Some (0, 0)) 0 0 "A";
              text_row 0 4 (Some (1, 1)) 0 0 "B";
              text_row 1 9 None 0 0 "Head";
              text_row 1 9 (Some (0, 0)) 0 0 "A";
              text_row 1 9 (Some (1, 1)) 0 0 "B" ] indices /\
    StronglySorted Z.le indices /\
    Forall (fun i => 0 <= i < 2) indices.
Proof.
  split; [reflexivity|].
  refine (rows_in_slide_order pptx_MSO_SHAPE_TYPE mixed_file mixed_presentation
            (map PyStr text_headers
             :: [ text_row 0 2 None 0 0 "Hello";
                  text_row 0 4 (Some (0, 0)) 0 0 "A";
                  text_row 0 4 (Some (1, 1)) 0 0 "B";
                  text_row 1 9 None 0 0 "Head";
                  text_row 1 9 (Some (0, 0)) 0 0 "A";
                  text_row 1 9 (Some (1, 1)) 0 0 "B" ])
            text_headers eq_refl _).
  left. split; reflexivity.
Defined.

(** X9.  Every shape that has a row in Stream A has its row in Stream B:
    the slide index and shape id of a row of the text-run output are
    those of some row of the shape summary of the same file. *)
Theorem text_rows_have_summary_row (E : list (string * Z)) (f : UploadedFile)
    (text_out summary_out : buffer) (row : list pyval) (i k : Z)
    (Htext : generate_text_details_tsv E f = Some text_out)
    (Hsummary : generate_combined_shape_details_tsv E f = Some summary_out)
    (Hrow : In row text_out)
    (Hslide : column text_headers "slide_index" row = Some (PyInt i))
    (Hid : column text_headers "shape_id" row = Some (PyInt k)) :
  exists row',
    In row' summary_out /\
    column csv_headers "slide_index" row' = Some (PyInt i) /\
    column csv_headers "shape_id" row' = Some (PyInt k).
Proof.
  destruct (load f) as [prs|e] eqn:Hload.
  2:{ rewrite text_pass_spec, Hload in Htext. discriminate. }
  rewrite (text_rows E f prs _ Hload Htext) in Hrow.
  rewrite (summary_rows E f prs _ Hload Hsummary).
  destruct Hrow as [<- | Hrow]; [discriminate|].
  apply text_data_rows_origin in Hrow.
  destruct Hrow as (j & shape & cp & p & r & t & Hvis & ->).
  destruct (text_row_columns j (shape_id shape) cp p r t) as [Hc1 Hc2].
  rewrite Hc1 in Hslide. rewrite Hc2 in Hid.
  injection Hslide as <-. injection Hid as <-.
  exists (dict_to_list csv_headers (shape_details E j shape)).
  split.
  - right. unfold summary_data_rows.
    apply (in_map (fun ish => dict_to_list csv_headers
                                (shape_details E (fst ish) (snd ish)))
                  _ (j, shape) Hvis).
  - destruct (summary_row_columns E j shape) as (H1 & H2 & _). auto.
Qed.

Lemma text_rows_have_summary_row_witness :
  generate_text_details_tsv pptx_MSO_SHAPE_TYPE mixed_file
  = Some [ map PyStr text_headers;
           text_row 0 2 None 0 0 "Hello";
           text_row 0 4 (Some (0, 0)) 0 0 "A";
           text_row 0 4 (Some (1, 1)) 0 0 "B";
           text_row 1 9 None 0 0 "Head";
           text_row 1 9 (Some (0, 0)) 0 0 "A";
           text_row 1 9 (Some (1, 1)) 0 0 "B" ] /\
  exists summary_out row',
    generate_combined_shape_details_tsv pptx_MSO_SHAPE_TYPE mixed_file
    = Some summary_out /\
    In row' summary_out /\
    column csv_headers "slide_index" row' = Some (PyInt 1) /\
    column csv_headers "shape_id" row' = Some (PyInt 9).
Proof.
  split; [reflexivity|].
  eexists.
  destruct (text_rows_have_summary_row pptx_MSO_SHAPE_TYPE mixed_file _ _
              (text_row 1 9 None 0 0 "Head") 1 9 eq_refl eq_refl
              (or_intror (or_intror (or_intror (or_intror (or_introl eq_refl)))))
              eq_refl eq_refl) as (row' & H).
  exists row'. split; [reflexivity | exact H].
Defined.

(** ** Connectors leave no trace *)

Lemma forallb_walkable_filter (E : list (string * Z)) (l : list Shape) :
  forallb (walkable E) (filter (fun shape => negb (is_line E shape)) l)
  = forallb (walkable E) l.
Proof.
  induction l as [|shape l IH]; cbn [filter forallb]; [reflexivity|].
  unfold walkable at 2.
  destruct (is_line E shape) eqn:Hline; cbn [negb orb andb forallb];
    [exact IH|].
  rewrite IH. unfold walkable. now rewrite Hline.
Qed.

Lemma shape_text_rows_filter (E : list (string * Z)) (i : Z) (l : list Shape) :
  flat_map (shape_text_rows E i) (filter (fun shape => negb (is_line E shape)) l)
  = flat_map (shape_text_rows E i) l.
Proof.
  induction l as [|shape l IH]; cbn [filter flat_map]; [reflexivity|].
  destruct (is_line E shape) eqn:Hline; cbn [negb flat_map].
  - rewrite IH. unfold shape_text_rows at 2. now rewrite Hline.
  - now rewrite IH.
Qed.

Lemma filter_filter_same {A} (p : A -> bool) (l : list A) :
  filter p (filter p l) = filter p l.
Proof.
  induction l as [|a l IH]; cbn; [reflexivity|].
  destruct (p a) eqn:Hp; cbn; rewrite ?Hp, IH; reflexivity.
Qed.

Lemma without_connectors_rows (E : list (string * Z)) (l : list Slide) (i : Z) :
  let strip_slide := fun slide =>
    {| shapes := filter (fun shape => negb (is_line E shape)) (shapes slide) |} in
  flat_map (fun isl => flat_map (shape_text_rows E (fst isl)) (shapes (snd isl)))
           (enumerate_from i (map strip_slide l))
  = flat_map (fun isl => flat_map (shape_text_rows E (fst isl)) (shapes (snd isl)))
             (enumerate_from i l) /\
  flat_map (fun isl : Z * Slide =>
              map (fun shape => (fst isl, shape))
                  (filter (fun shape => negb (is_line E shape)) (shapes (snd isl))))
           (enumerate_from i (map strip_slide l))
  = flat_map (fun isl : Z * Slide =>
                map (fun shape => (fst isl, shape))
                    (filter (fun shape => negb (is_line E shape)) (shapes (snd isl))))
             (enumerate_from i l) /\
  forallb (fun slide => forallb (walkable E) (shapes slide)) (map strip_slide l)
  = forallb (fun slide => forallb (walkable E) (shapes slide)) l.
Proof.
  cbv zeta. revert i. induction l as [|slide l IH]; intros i;
    cbn [map enumerate_from flat_map forallb fst snd shapes];
    [repeat split|].
  destruct (IH (i + 1)) as (H1 & H2 & H3).
  rewrite H1, H2, H3, shape_text_rows_filter, filter_filter_same,
    forallb_walkable_filter.
  repeat split.
Qed.

(** X10.  Taking the connectors off every slide changes neither output:
    a connector contributes no row and no failure, and does not shift
    the slide index of any other shape. *)
Theorem connectors_leave_no_trace (E : list (string * Z)) (f : UploadedFile) :
  generate_text_details_tsv E (file_without_connectors E f)
  = generate_text_details_tsv E f /\
  generate_combined_shape_details_tsv E (file_without_connectors E f)
  = generate_combined_shape_details_tsv E f.
Proof.
  rewrite !text_pass_spec, !summary_pass_spec.
  unfold file_without_connectors. cbn [load seek0].
  destruct (load f) as [prs|e]; [|split; reflexivity].
  destruct (without_connectors_rows E (slides prs) 0) as (H1 & H2 & H3).
  unfold walkable_presentation, text_data_rows, summary_data_rows,
    visible_shapes, enumerate, without_connectors. cbn [slides].
  now rewrite H1, H2, H3.
Qed.

(** ** Counting the rows of the table cells *)

Lemma frame_rows_cell_length (slide_idx sid : Z) (cellpos : option (Z * Z))
    (tf : TextFrame) :
  List.length (filter is_cell_row (frame_rows slide_idx sid cellpos tf))
  = match cellpos with
    | Some _ => List.length (flat_map (fun p => filter nonempty_run (runs p))
                                      (paragraphs tf))
    | None => 0%nat
    end.
Proof.
  unfold frame_rows, enumerate. destruct cellpos as [[r c]|].
  - apply count_flat_map_enumerate. intros j p. cbn [fst snd].
    rewrite <- (flat_map_singletons nonempty_run (runs p)).
    apply count_flat_map_enumerate. intros k run. cbn [fst snd].
    now destruct (nonempty_run run).
  - rewrite (count_flat_map_enumerate _ _ (fun _ => @nil Run)).
    + now rewrite flat_map_empty.
    + intros j p.
      rewrite (count_flat_map_enumerate _ _ (fun _ => @nil Run)).
      * now rewrite flat_map_empty.
      * intros k run. cbn [fst snd]. now destruct (nonempty_run run).
Qed.

Lemma table_rows_cell_length (slide_idx sid : Z) (tbl : Table) :
  List.length (filter is_cell_row (table_rows slide_idx sid tbl))
  = List.length
      (flat_map (fun row =>
         flat_map (fun cell =>
           flat_map (fun p => filter nonempty_run (runs p))
                    (paragraphs (cell_text_frame cell)))
           (cells row))
         (rows tbl)).
Proof.
  unfold table_rows, enumerate.
  apply count_flat_map_enumerate. intros j row. cbn [fst snd].
  apply count_flat_map_enumerate. intros k cell. cbn [fst snd].
  apply (frame_rows_cell_length slide_idx sid (Some (j, k))).
Qed.

(** X11.  In the output of the text-run pass, the rows whose
    is_table_cell is true are as many as the runs with non-empty trimmed
    text in the cells of the tables of the shapes that are not
    connectors and have the kind of a table. *)
Theorem cell_row_count (E : list (string * Z)) (f : UploadedFile)
    (prs : Presentation) (out : buffer)
    (Hload : load f = Ok prs)
    (Hout : generate_text_details_tsv E f = Some out) :
  List.length (filter is_cell_row out)
  = List.length (nonempty_cell_runs E prs).
Proof.
  rewrite (text_rows E f prs out Hload Hout).
  change (filter is_cell_row (map PyStr text_headers :: text_data_rows E prs))
    with (filter is_cell_row (text_data_rows E prs)).
  unfold text_data_rows, nonempty_cell_runs, enumerate.
  apply count_flat_map_enumerate. intros i slide. cbn [fst snd].
  apply count_flat_map. intros shape. unfold shape_text_rows.
  destruct (is_line E shape); [reflexivity|].
  rewrite filter_app, length_app.
  assert (Hframe : List.length (filter is_cell_row
            match text_frame shape with
            | Some tf => frame_rows i (shape_id shape) None tf
            | None => []
            end) = 0%nat).
  { destruct (text_frame shape) as [tf|]; [|reflexivity].
    apply (frame_rows_cell_length i (shape_id shape) None tf). }
  rewrite Hframe, Nat.add_0_l.
  destruct (is_table E shape); [|reflexivity].
  destruct (table shape) as [tbl|]; [|reflexivity].
  apply table_rows_cell_length.
Qed.

Lemma cell_row_count_witness :
  generate_text_details_tsv pptx_MSO_SHAPE_TYPE mixed_file
  = Some [ map PyStr text_headers;
           text_row 0 2 None 0 0 "Hello";
           text_row 0 4 (Some (0, 0)) 0 0 "A";
           text_row 0 4 (Some (1, 1)) 0 0 "B";
           text_row 1 9 None 0 0 "Head";
           text_row 1 9 (Some (0, 0)) 0 0 "A";
           text_row 1 9 (Some (1, 1)) 0 0 "B" ] /\
  List.length (filter is_cell_row
    [ map PyStr text_headers;
      text_row 0 2 None 0 0 "Hello";
      text_row 0 4 (Some (0, 0)) 0 0 "A";
      text_row 0 4 (Some (1, 1)) 0 0 "B";
      text_row 1 9 None 0 0 "Head";
      text_row 1 9 (Some (0, 0)) 0 0 "A";
      text_row 1 9 (Some (1, 1)) 0 0 "B" ]) = 4%nat.
Proof.
  split; [reflexivity|].
  exact (cell_row_count pptx_MSO_SHAPE_TYPE mixed_file mixed_presentation _
           eq_refl eq_refl).
Defined.

(* ================================================================== *)
(** * More on the fill-colour classifier *)

(** X12.  A fill that is not solid is described by the fixed label of
    its type, and a fill without a type by "No Fill"; the fore colour is
    not looked at, so it does not matter whether it can be read. *)
Theorem other_fills_labelled (E : list (string * Z)) (shape : Shape)
    (fl : FillFormat) (Hfill : fill shape = Some fl) :
  (forall ty, fill_type fl = Ok (Some ty) -> ty <> SOLID ->
     get_shape_fill_color_info E shape = Ok (fill_label ty)) /\
  (fill_type fl = Ok None ->
   get_shape_fill_color_info E shape = Ok "No Fill").
Proof.
  unfold get_shape_fill_color_info, object_of, inspect_fill.
  cbn [object_fill object_shape_type]. rewrite Hfill.
  cbn [hasattr getattr rbind negb]. split.
  - intros ty -> Hns. destruct ty; try reflexivity. congruence.
  - intros ->. reflexivity.
Qed.

Lemma other_fills_labelled_witness :
  get_shape_fill_color_info pptx_MSO_SHAPE_TYPE
    (with_fill gradient_fill (bare_shape 1 1)) = Ok "Gradient Fill".
Proof.
  apply (proj1 (other_fills_labelled pptx_MSO_SHAPE_TYPE
                  (with_fill gradient_fill (bare_shape 1 1)) gradient_fill
                  eq_refl) GRADIENT eq_refl).
  discriminate.
Defined.

(** X13.  For a solid fill: an RGB value wins, whatever the theme colour
    and the brightness are, readable or not; with neither an RGB value
    nor a theme colour the result is "Solid Fill"; and when the fore
    colour cannot be read, or the theme colour is set and the brightness
    cannot be read, the result is the error description. *)
Theorem solid_fill_cases (E : list (string * Z)) (shape : Shape)
    (fl : FillFormat)
    (Hfill : fill shape = Some fl)
    (Hsolid : fill_type fl = Ok (Some SOLID)) :
  (forall color c,
     fore_color fl = Ok color -> rgb color = Value (Some c) ->
     get_shape_fill_color_info E shape
     = Ok ("RGB(" ++ str_of_byte (red c) ++ "," ++ str_of_byte (green c)
             ++ "," ++ str_of_byte (blue c) ++ ")")) /\
  (forall color,
     fore_color fl = Ok color -> unset (rgb color) ->
     unset (theme_color color) ->
     get_shape_fill_color_info E shape = Ok "Solid Fill") /\
  (forall e,
     fore_color fl = Raise e ->
     get_shape_fill_color_info E shape = Ok "Fill Info Error (General)") /\
  (forall color i e,
     fore_color fl = Ok color -> unset (rgb color) ->
     theme_color color = Value (Some i) -> brightness color = Raise e ->
     get_shape_fill_color_info E shape = Ok "Fill Info Error (General)").
Proof.
  unfold get_shape_fill_color_info, object_of, inspect_fill, unset.
  cbn [object_fill object_shape_type]. rewrite Hfill.
  cbn [hasattr getattr rbind negb]. rewrite Hsolid. cbn.
  split; [|split; [|split]].
  - intros color c -> Hrgb. cbn. rewrite Hrgb. reflexivity.
  - intros color -> [Hr | Hr] [Ht | Ht]; cbn; rewrite Hr, Ht; reflexivity.
  - intros e ->. reflexivity.
  - intros color i e -> [Hr | Hr] Ht Hb; cbn; rewrite Hr, Ht, Hb; reflexivity.
Qed.

Lemma solid_fill_cases_witness :
  get_shape_fill_color_info pptx_MSO_SHAPE_TYPE
    (with_fill (solid rgb_only_color) (bare_shape 1 1)) = Ok "RGB(10,20,30)".
Proof.
  exact (proj1 (solid_fill_cases pptx_MSO_SHAPE_TYPE
                  (with_fill (solid rgb_only_color) (bare_shape 1 1))
                  (solid rgb_only_color) eq_refl eq_refl)
               rgb_only_color {| red := x0a; green := x14; blue := x1e |}
               eq_refl eq_refl).
Defined.

(* ================================================================== *)
(** * More on the text concatenator *)

Lemma string_app_empty (a b : string) : a ++ b = "" -> a = "" /\ b = "".
Proof. destruct a; cbn; [auto | discriminate]. Qed.

Lemma join_cons (sep x : string) (l : list string) :
  l <> [] -> join sep (x :: l) = x ++ sep ++ join sep l.
Proof. destruct l; [congruence | reflexivity]. Qed.

Lemma join_app (sep : string) (l1 l2 : list string) :
  l1 <> [] -> l2 <> [] ->
  join sep (l1 ++ l2) = join sep l1 ++ sep ++ join sep l2.
Proof.
  intros H1 H2. induction l1 as [|x l1 IH]; [congruence|].
  destruct l1 as [|y l1].
  - cbn [app]. now rewrite join_cons.
  - change ((x :: y :: l1) ++ l2)%list with (x :: ((y :: l1) ++ l2))%list.
    rewrite join_cons by discriminate.
    rewrite IH by discriminate.
    rewrite (join_cons sep x (y :: l1)) by discriminate.
    now rewrite !string_app_assoc.
Qed.

(** Joined non-empty parts are not empty. *)
Lemma join_empty (sep : string) (l : list string) :
  (forall t, In t l -> t <> "") -> join sep l = "" -> l = [].
Proof.
  destruct l as [|x l]; [reflexivity|]. intros Hne Hjoin. exfalso.
  apply (Hne x (or_introl eq_refl)).
  destruct l as [|y l]; [exact Hjoin|].
  rewrite join_cons in Hjoin by discriminate.
  now apply string_app_empty in Hjoin.
Qed.

Lemma parts_nonempty (l : list string) (t : string) :
  In t (filter truthy (map strip l)) -> t <> "".
Proof.
  intros Hin. apply filter_In in Hin. now apply truthy_iff.
Qed.

Lemma parts_nil_iff (l : list string) :
  filter truthy (map strip l) = [] <-> forall t, In t l -> strip t = "".
Proof.
  induction l as [|x l IH]; cbn [map filter In]; [tauto|].
  destruct (truthy (strip x)) eqn:Hx.
  - split; [discriminate|]. intros H. apply truthy_iff in Hx.
    exfalso. apply Hx. apply H. now left.
  - rewrite IH. split.
    + intros H t [<- | Hin]; [|auto].
      destruct (strip x); [reflexivity | discriminate].
    + intros H t Hin. apply H. now right.
Qed.

(** X14.  When the concatenator returns, its result is empty exactly
    when every paragraph text and cell text it looks at is empty after
    trimming. *)
Theorem concatenation_empty_iff (E : list (string * Z)) (shape : Shape)
    (out : string)
    (Hout : get_all_text_from_shape E shape = Ok out) :
  out = "" <-> forall t, In t (shape_texts E shape) -> strip t = "".
Proof.
  rewrite get_all_text_from_shape_spec in Hout.
  destruct (_ && _); [discriminate|]. injection Hout as <-.
  rewrite <- parts_nil_iff. split.
  - apply join_empty. intros t. apply parts_nonempty.
  - intros ->. reflexivity.
Qed.

Lemma concatenation_empty_iff_witness :
  get_all_text_from_shape pptx_MSO_SHAPE_TYPE
    (text_shape 2 1 None "   ") = Ok "" /\
  forall t,
    In t (shape_texts pptx_MSO_SHAPE_TYPE (text_shape 2 1 None "   ")) ->
    strip t = "".
Proof.
  split; [reflexivity|].
  apply (concatenation_empty_iff pptx_MSO_SHAPE_TYPE
           (text_shape 2 1 None "   ") "" eq_refl).
  reflexivity.
Defined.

Lemma shape_texts_split (E : list (string * Z)) (shape : Shape) :
  shape_texts E shape
  = (shape_texts E (only_text_frame shape) ++ shape_texts E (only_table shape))%list.
Proof.
  unfold shape_texts, only_text_frame, only_table, is_table.
  cbn [text_frame table shape_type rows].
  destruct (kind_is E "TABLE" (shape_type shape) || _);
    cbn [flat_map app]; now rewrite ?app_nil_r.
Qed.

(** X16.  Text frame first, table second: for a shape that has both,
    the result is the result for its text frame alone and the result
    for its table alone, joined by " | " when neither is empty, and the
    other one when one is empty. *)
Theorem concatenation_of_both (E : list (string * Z)) (shape : Shape)
    (out : string)
    (Hout : get_all_text_from_shape E shape = Ok out) :
  exists frame_text table_text,
    get_all_text_from_shape E (only_text_frame shape) = Ok frame_text /\
    get_all_text_from_shape E (only_table shape) = Ok table_text /\
    out = joined frame_text table_text.
Proof.
  rewrite get_all_text_from_shape_spec in Hout.
  rewrite !get_all_text_from_shape_spec.
  assert (Hkind : is_table E (only_table shape) = is_table E shape) by reflexivity.
  assert (Hkind' : is_table E (only_text_frame shape) = is_table E shape)
    by reflexivity.
  rewrite Hkind, Hkind'.
  change (table (only_table shape)) with (table shape).
  change (table (only_text_frame shape)) with (Some {| rows := [] |}).
  cbn [is_not_None negb]. rewrite andb_false_r.
  destruct (is_table E shape && negb (is_not_None (table shape)));
    [discriminate|].
  injection Hout as <-. eexists _, _. split; [reflexivity|].
  split; [reflexivity|].
  rewrite (shape_texts_split E shape), map_app, filter_app.
  set (a := filter truthy (map strip (shape_texts E (only_text_frame shape)))).
  set (b := filter truthy (map strip (shape_texts E (only_table shape)))).
  assert (Ha : forall t, In t a -> t <> "") by (intros t; apply parts_nonempty).
  assert (Hb : forall t, In t b -> t <> "") by (intros t; apply parts_nonempty).
  destruct a as [|x a]; [reflexivity|].
  destruct b as [|y b].
  - rewrite app_nil_r. unfold joined.
    destruct (join " | " (x :: a)) eqn:Hj; [|reflexivity].
    apply join_empty in Hj; [discriminate | exact Ha].
  - rewrite join_app by discriminate. unfold joined.
    destruct (join " | " (x :: a)) eqn:Hja;
      [apply join_empty in Hja; [discriminate | exact Ha]|].
    destruct (join " | " (y :: b)) eqn:Hjb;
      [apply join_empty in Hjb; [discriminate | exact Hb]|].
    reflexivity.
Qed.

Lemma concatenation_of_both_witness :
  get_all_text_from_shape pptx_MSO_SHAPE_TYPE framed_table_shape
  = Ok "Head | A | B" /\
  exists frame_text table_text,
    get_all_text_from_shape pptx_MSO_SHAPE_TYPE
      (only_text_frame framed_table_shape) = Ok frame_text /\
    get_all_text_from_shape pptx_MSO_SHAPE_TYPE
      (only_table framed_table_shape) = Ok table_text /\
    "Head | A | B" = joined frame_text table_text.
Proof.
  split; [reflexivity|].
  exact (concatenation_of_both pptx_MSO_SHAPE_TYPE framed_table_shape
           "Head | A | B" eq_refl).
Defined.

(* ================================================================== *)
(** * What the shape summary says of a shape *)

Lemma visible_shape_walkable (E : list (string * Z)) (prs : Presentation)
    (i : Z) (shape : Shape) :
  walkable_presentation E prs = true ->
  In (i, shape) (visible_shapes E prs) ->
  is_table E shape && negb (is_not_None (table shape)) = false.
Proof.
  intros Hwalk Hvis. apply visible_shapes_on_slide in Hvis.
  destruct Hvis as [(slide & _ & Hnth & Hin) Hline].
  unfold walkable_presentation in Hwalk. rewrite forallb_forall in Hwalk.
  specialize (Hwalk slide (nth_error_In _ _ Hnth)).
  rewrite forallb_forall in Hwalk. specialize (Hwalk shape Hin).
  unfold walkable in Hwalk. rewrite Hline in Hwalk. cbn [orb] in Hwalk.
  destruct (is_table E shape), (is_not_None (table shape));
    cbn in *; congruence.
Qed.

Lemma summary_rows_walkable (E : list (string * Z)) (f : UploadedFile)
    (prs : Presentation) (out : buffer) :
  load f = Ok prs ->
  generate_combined_shape_details_tsv E f = Some out ->
  walkable_presentation E prs = true.
Proof.
  intros Hload. rewrite summary_pass_spec, Hload.
  destruct (seek0 f); [|discriminate].
  now destruct (walkable_presentation E prs).
Qed.

(** X17.  In the shape summary, the color column of a shape's row is
    what the classifier returns for the shape, and its text column is
    what the concatenator returns for it. *)
Theorem summary_row_contents (E : list (string * Z)) (f : UploadedFile)
    (prs : Presentation) (out : buffer)
    (Hload : load f = Ok prs)
    (Hout : generate_combined_shape_details_tsv E f = Some out) :
  exists data,
    out = map PyStr csv_headers :: data /\
    Forall2 (fun (ish : Z * Shape) (row : list pyval) =>
      exists color text,
        get_shape_fill_color_info E (snd ish) = Ok color /\
        get_all_text_from_shape E (snd ish) = Ok text /\
        column csv_headers "shape_id" row = Some (PyInt (shape_id (snd ish))) /\
        column csv_headers "color" row = Some (PyStr color) /\
        column csv_headers "text" row = Some (PyStr text))
      (visible_shapes E prs) data.
Proof.
  exists (summary_data_rows E prs).
  split; [exact (summary_rows E f prs out Hload Hout)|].
  pose proof (summary_rows_walkable E f prs out Hload Hout) as Hwalk.
  unfold summary_data_rows. apply Forall2_map_right.
  intros [i shape] Hvis. cbn [fst snd].
  destruct (classifier_returns E shape) as (color & Hcolor & _).
  pose proof (get_all_text_from_shape_spec E shape) as Htext.
  rewrite (visible_shape_walkable E prs i shape Hwalk Hvis) in Htext.
  eexists color, _. split; [exact Hcolor|]. split; [exact Htext|].
  unfold shape_details. rewrite Hcolor, Htext.
  split; [|split]; reflexivity.
Qed.

Lemma summary_row_contents_witness :
  generate_combined_shape_details_tsv pptx_MSO_SHAPE_TYPE odd_shapes_file
  = Some [ map PyStr csv_headers;
           [ PyInt 0; PyInt 2; PyStr "Unnamed Shape"; PyStr "TEXT_BOX";
             PyStr "Fill Attribute Missing / Other Type";
             PyInt 0; PyInt 0; PyInt 914400; PyInt 914400; PyStr "x" ];
           [ PyInt 0; PyInt 3; PyStr "Shape"; PyStr "Unknown (99)";
             PyStr "Fill Attribute Missing / Other Type";
             PyStr "N/A"; PyStr "N/A"; PyStr "N/A"; PyStr "N/A"; PyStr "" ] ] /\
  exists data,
    [ map PyStr csv_headers;
      [ PyInt 0; PyInt 2; PyStr "Unnamed Shape"; PyStr "TEXT_BOX";
        PyStr "Fill Attribute Missing / Other Type";
        PyInt 0; PyInt 0; PyInt 914400; PyInt 914400; PyStr "x" ];
      [ PyInt 0; PyInt 3; PyStr "Shape"; PyStr "Unknown (99)";
        PyStr "Fill Attribute Missing / Other Type";
        PyStr "N/A"; PyStr "N/A"; PyStr "N/A"; PyStr "N/A"; PyStr "" ] ]
    = map PyStr csv_headers :: data /\
    List.length data = 2%nat.
Proof.
  split; [reflexivity|].
  destruct (summary_row_contents pptx_MSO_SHAPE_TYPE odd_shapes_file _ _
              eq_refl eq_refl) as (data & Hdata & Hrows).
  exists data. split; [exact Hdata|].
  apply Forall2_length in Hrows. now rewrite <- Hrows.
Defined.

(** X18.  The four geometry columns of a shape's row hold the shape's
    left, top, width and height, whatever their values (zero included),
    and the text "N/A" for each attribute the shape does not have. *)
Theorem geometry_columns (E : list (string * Z)) (f : UploadedFile)
    (prs : Presentation) (out : buffer)
    (Hload : load f = Ok prs)
    (Hout : generate_combined_shape_details_tsv E f = Some out) :
  exists data,
    out = map PyStr csv_headers :: data /\
    Forall2 (fun (ish : Z * Shape) (row : list pyval) =>
      let present := fun (a : option pyval) (key : string) =>
        (forall v, a = Some v -> column csv_headers key row = Some v) /\
        (a = None -> column csv_headers key row = Some (PyStr "N/A")) in
      column csv_headers "shape_id" row = Some (PyInt (shape_id (snd ish))) /\
      present (shape_left (snd ish)) "x_coordinate_emu" /\
      present (shape_top (snd ish)) "y_coordinate_emu" /\
      present (shape_width (snd ish)) "width_emu" /\
      present (shape_height (snd ish)) "height_emu")
      (visible_shapes E prs) data.
Proof.
  exists (summary_data_rows E prs).
  split; [exact (summary_rows E f prs out Hload Hout)|].
  unfold summary_data_rows. apply Forall2_map_right.
  intros [i shape] _. cbv zeta. cbn [fst snd].
  split; [reflexivity|].
  split; [|split; [|split]]; split; intros; 
    match goal with H : _ = _ |- _ => revert H end;
    unfold shape_details, dict_to_list, column; cbn; intros ->; reflexivity.
Qed.

Lemma geometry_columns_witness :
  generate_combined_shape_details_tsv pptx_MSO_SHAPE_TYPE odd_shapes_file
  = Some [ map PyStr csv_headers;
           [ PyInt 0; PyInt 2; PyStr "Unnamed Shape"; PyStr "TEXT_BOX";
             PyStr "Fill Attribute Missing / Other Type";
             PyInt 0; PyInt 0; PyInt 914400; PyInt 914400; PyStr "x" ];
           [ PyInt 0; PyInt 3; PyStr "Shape"; PyStr "Unknown (99)";
             PyStr "Fill Attribute Missing / Other Type";
             PyStr "N/A"; PyStr "N/A"; PyStr "N/A"; PyStr "N/A"; PyStr "" ] ] /\
  exists data,
    [ map PyStr csv_headers;
      [ PyInt 0; PyInt 2; PyStr "Unnamed Shape"; PyStr "TEXT_BOX";
        PyStr "Fill Attribute Missing / Other Type";
        PyInt 0; PyInt 0; PyInt 914400; PyInt 914400; PyStr "x" ];
      [ PyInt 0; PyInt 3; PyStr "Shape"; PyStr "Unknown (99)";
        PyStr "Fill Attribute Missing / Other Type";
        PyStr "N/A"; PyStr "N/A"; PyStr "N/A"; PyStr "N/A"; PyStr "" ] ]
    = map PyStr csv_headers :: data /\
    List.length data = 2%nat.
Proof.
  split; [reflexivity|].
  destruct (geometry_columns pptx_MSO_SHAPE_TYPE odd_shapes_file _ _
              eq_refl eq_refl) as (data & Hdata & Hrows).
  exists data. split; [exact Hdata|].
  apply Forall2_length in Hrows. now rewrite <- Hrows.
Defined.
